(** * A shallow embedding of the research assistant backend

    The Python sources embedded here are
    - [backend/config.py]                     (module [Config]),
    - [backend/tools/arxiv_tool.py]           (module [ArxivTool]),
    - [backend/tools/web_search_tool.py]      (module [WebSearchTool]),
    - [backend/tools/course_finder_tool.py]   (module [CourseFinderTool]),
    - [backend/tools/summarization_tool.py]   (module [SummarizationTool]),
    - [backend/agent/state.py], [backend/agent/graph.py] (module [Graph]).

    Conventions.  A Python [int] is a [Z].  A Python [str] is a [string]; one
    character of the model is one [ascii], so [len] and slices agree with
    Python on ASCII text.  A Python call either returns or raises: its result
    is an [Outcome].  Every external collaborator (chat model, arXiv client,
    DuckDuckGo client, HTTP client, PDF reader) is a Section variable whose
    result is an [Outcome], so that a fault can come out of any of them.
    [print] calls are progress logging and are left out. *)

From Stdlib Require Import ZArith Lia String Ascii List QArith.
From stdpp Require Import base option list gmap strings pretty.

Local Open Scope string_scope.
Local Open Scope Z_scope.

(** ** Python prelude: exceptions, outcomes, the string operations used *)

Module Py.

(** The exception classes the sources distinguish in their [except]
    clauses, all of them subclasses of [Exception]. *)
Inductive ExnClass : Set :=
| IndexError
| KeyError
| TypeError
| ValueError
| ValidationError
| RequestException
| PdfReadError
| RuntimeError.

#[global] Instance ExnClass_eq_dec : EqDecision ExnClass.
Proof. solve_decision. Defined.

(** An exception object: its class and [str(e)]. *)
Record Exn : Set := mkExn { exn_class : ExnClass; exn_str : string }.

Inductive Outcome (A : Type) : Type :=
| Return (a : A)
| Raise (e : Exn).
Arguments Return {A} a.
Arguments Raise {A} e.

Definition bind {A B} (c : Outcome A) (k : A -> Outcome B) : Outcome B :=
  match c with
  | Return a => k a
  | Raise e => Raise e
  end.

(** [try: body  except C1 as e: h1  except C2 as e: h2 ...]: when the body
    raises, the first clause whose class test accepts the exception runs
    its handler; with no such clause the exception goes on to the caller.
    An exception raised by a handler is not caught by a sibling clause. *)
Definition Clause (A : Type) : Type := ((ExnClass -> bool) * (Exn -> Outcome A))%type.

Fixpoint dispatch {A} (clauses : list (Clause A)) (e : Exn) : Outcome A :=
  match clauses with
  | [] => Raise e
  | (accepts, handler) :: rest =>
      if accepts (exn_class e) then handler e else dispatch rest e
  end.

Definition try_except {A} (body : Outcome A) (clauses : list (Clause A))
    : Outcome A :=
  match body with
  | Return a => Return a
  | Raise e => dispatch clauses e
  end.

(** Clauses whose handlers all return. *)
Definition returning {A} (clauses : list (Clause A)) : Prop :=
  Forall (fun c : Clause A => forall e, exists a, snd c e = Return a) clauses.

(** [except Exception]: every class of [ExnClass]. *)
Definition Exception (c : ExnClass) : bool := true.

(** [except C] for one of the other classes *)
Definition is_class (c d : ExnClass) : bool := bool_decide (c = d).

(** [l[i]] for [i >= 0] *)
Definition item {A} (l : list A) (i : nat) : Outcome A :=
  match l !! i with
  | Some x => Return x
  | None => Raise (mkExn IndexError "list index out of range")
  end.

Fixpoint mapM {A B} (f : A -> Outcome B) (l : list A) : Outcome (list B) :=
  match l with
  | [] => Return []
  | x :: l' =>
      bind (f x) (fun y => bind (mapM f l') (fun ys => Return (y :: ys)))
  end.

(** [l[-1]] *)
Definition last_item {A} (l : list A) : Outcome A :=
  match last l with
  | Some x => Return x
  | None => Raise (mkExn IndexError "list index out of range")
  end.

Definition nl : string := String (ascii_of_nat 10) EmptyString.

(** [sep.join(parts)] *)
Definition join (sep : string) (parts : list string) : string :=
  String.concat sep parts.

(** [len(s)] *)
Definition len (s : string) : Z := Z.of_nat (String.length s).

(** [s[:n]] for a literal [n >= 0] *)
Definition prefix_slice (n : Z) (s : string) : string :=
  String.substring 0 (Z.to_nat n) s.

Definition lower_ascii (c : ascii) : ascii :=
  let n := nat_of_ascii c in
  if (65 <=? n)%nat && (n <=? 90)%nat then ascii_of_nat (n + 32) else c.

(** [s.lower()] *)
Fixpoint lower (s : string) : string :=
  match s with
  | EmptyString => EmptyString
  | String c s' => String (lower_ascii c) (lower s')
  end.

Definition is_space (c : ascii) : bool :=
  let n := nat_of_ascii c in
  ((9 <=? n)%nat && (n <=? 13)%nat) || (n =? 32)%nat
  || ((28 <=? n)%nat && (n <=? 31)%nat).

Fixpoint lstrip (s : string) : string :=
  match s with
  | EmptyString => EmptyString
  | String c s' => if is_space c then lstrip s' else s
  end.

Fixpoint rstrip (s : string) : string :=
  match s with
  | EmptyString => EmptyString
  | String c s' =>
      match rstrip s' with
      | EmptyString => if is_space c then EmptyString else String c EmptyString
      | r => String c r
      end
  end.

(** [s.strip()] *)
Definition strip (s : string) : string := rstrip (lstrip s).

(** [s.replace(a, b)] for one-character [a] and [b] *)
Fixpoint replace_char (a b : ascii) (s : string) : string :=
  match s with
  | EmptyString => EmptyString
  | String c s' =>
      String (if Ascii.eqb c a then b else c) (replace_char a b s')
  end.

(** [needle in hay] on strings *)
Fixpoint contains (needle hay : string) : bool :=
  String.prefix needle hay
  || match hay with
     | EmptyString => false
     | String _ hay' => contains needle hay'
     end.

(** [any(p(x) for x in l)] *)
Definition any {A} (p : A -> bool) (l : list A) : bool := existsb p l.

(** [d.get(k, dflt)] *)
Definition dict_get {V} (d : gmap string V) (k : string) (dflt : V) : V :=
  default dflt (d !! k).

(** [d[k]] *)
Definition getitem {V} (d : gmap string V) (k : string) : Outcome V :=
  match d !! k with
  | Some v => Return v
  | None => Raise (mkExn KeyError ("'" +:+ k +:+ "'"))
  end.

(** [str(n)] for a non-negative count *)
Definition str_nat (n : nat) : string := pretty n.

(** [str(n)] *)
Definition str_int (n : Z) : string := pretty n.

(** A number printed on at least [w] digits, as [%m] and [%d] do. *)
Definition zero_pad (w : nat) (n : nat) : string :=
  let s := str_nat n in
  String.concat EmptyString (replicate (w - String.length s) "0") +:+ s.

End Py.

Import Py.

#[global] Instance Outcome_ret : MRet Outcome := @Return.
#[global] Instance Outcome_bind : MBind Outcome := fun A B k c => Py.bind c k.

(** ** backend/config.py *)

Module Config.

(** [class Settings(BaseSettings)].  The sampling temperature is a
    rational standing for the Python float. *)
Record Settings : Type := mkSettings {
  groq_api_key : string;
  google_api_key : string;
  llm_model : string;
  llm_temperature : Q;
  max_iterations : Z;
  api_title : string;
  api_version : string
}.

(** What the environment holds for a field of a numeric type: nothing, a
    text that parses to a value of the type, or a text that does not. *)
Inductive EnvValue (A : Type) : Type :=
| Unset
| Parsed (a : A)
| Unparseable (raw : string).
Arguments Unset {A}.
Arguments Parsed {A} a.
Arguments Unparseable {A} raw.

(** What the process environment and the [.env] file hold for each field
    when [Settings()] runs; [None] and [Unset] are a variable that is not
    set.  Any text is a value of a [str] field. *)
Record Environ : Type := mkEnviron {
  env_groq_api_key : option string;
  env_google_api_key : option string;
  env_llm_model : option string;
  env_llm_temperature : EnvValue Q;
  env_max_iterations : EnvValue Z;
  env_api_title : option string;
  env_api_version : option string
}.

Definition missing (field : string) : Exn :=
  mkExn ValidationError (field +:+ ": Field required").

(** The validation of a numeric field: its default when the variable is
    not set, the parsed value, or a validation error. *)
Definition validated {A} (field : string) (dflt : A) (v : EnvValue A)
    : Outcome A :=
  match v with
  | Unset => Return dflt
  | Parsed a => Return a
  | Unparseable raw =>
      Raise (mkExn ValidationError
               (field +:+ ": Input should be a valid number, unable to parse '"
                  +:+ raw +:+ "'"))
  end.

(** [Settings()]: the two keys are required, the other fields have the
    defaults of the class body, and a numeric field has to parse. *)
Definition Settings_init (env : Environ) : Outcome Settings :=
  match env_groq_api_key env, env_google_api_key env with
  | None, _ => Raise (missing "groq_api_key")
  | _, None => Raise (missing "google_api_key")
  | Some groq, Some google =>
      temperature ← validated "llm_temperature" (7 # 10)%Q
                      (env_llm_temperature env);
      ceiling ← validated "max_iterations" 10 (env_max_iterations env);
      mret {| groq_api_key := groq;
              google_api_key := google;
              llm_model := default "gemini-2.5-flash" (env_llm_model env);
              llm_temperature := temperature;
              max_iterations := ceiling;
              api_title := default "AI Research Assistant" (env_api_title env);
              api_version := default "1.0.0" (env_api_version env) |}
  end.

(** The process state [get_settings] works on: the [Settings] objects
    allocated so far (an object's identity is its index in [heap]) and the
    single entry of the [lru_cache] of the zero-argument function. *)
Record Process : Type := mkProcess {
  heap : list Settings;
  cache : option nat
}.

Definition fresh : Process := {| heap := []; cache := None |}.

(** [@lru_cache() def get_settings(): return Settings()].  A hit returns
    the cached reference; a miss runs the body and stores its result; a
    body that raises stores nothing. *)
Definition get_settings (env : Environ) (p : Process) : Outcome nat * Process :=
  match cache p with
  | Some ref => (Return ref, p)
  | None =>
      match Settings_init env with
      | Return s =>
          let ref := length (heap p) in
          (Return ref, {| heap := heap p ++ [s]; cache := Some ref |})
      | Raise e => (Raise e, p)
      end
  end.

(** The shapes the process state takes: nothing built and nothing cached,
    or one object built and cached. *)
Definition well_formed (p : Process) : Prop :=
  (cache p = None /\ heap p = []) \/ (cache p = Some 0%nat /\ length (heap p) = 1%nat).

(** The process after a sequence of calls, one environment per call. *)
Definition run_calls (envs : list Environ) (p : Process) : Process :=
  fold_left (fun p env => snd (get_settings env p)) envs p.

(** Reading the fields of the object a reference points to. *)
Definition deref (p : Process) (ref : nat) : option Settings := heap p !! ref.

Definition env_minimal : Environ :=
  {| env_groq_api_key := Some "gk"; env_google_api_key := Some "ok";
     env_llm_model := None; env_llm_temperature := Unset;
     env_max_iterations := Unset; env_api_title := None;
     env_api_version := None |}.

Definition env_changed : Environ :=
  {| env_groq_api_key := Some "gk2"; env_google_api_key := Some "ok2";
     env_llm_model := Some "other-model"; env_llm_temperature := Parsed (1 # 5)%Q;
     env_max_iterations := Parsed 3; env_api_title := None;
     env_api_version := None |}.

(** Both keys set and a ceiling that is not a number. *)
Definition env_bad_ceiling : Environ :=
  {| env_groq_api_key := Some "gk"; env_google_api_key := Some "ok";
     env_llm_model := None; env_llm_temperature := Unset;
     env_max_iterations := Unparseable "ten"; env_api_title := None;
     env_api_version := None |}.

Definition env_empty : Environ :=
  {| env_groq_api_key := None; env_google_api_key := None;
     env_llm_model := None; env_llm_temperature := Unset;
     env_max_iterations := Unset; env_api_title := None;
     env_api_version := None |}.

End Config.

(** ** backend/tools/arxiv_tool.py *)

Module ArxivTool.

(** [paper.published], a [datetime]; only its date is printed. *)
Record Date : Set := mkDate { year : nat; month : nat; day : nat }.

(** [arxiv.Result], the fields the adapter reads. *)
Record Paper : Set := mkPaper {
  title : string;
  authors : list string;
  published : Date;
  summary : string;
  pdf_url : string;
  entry_id : string;
  categories : list string
}.

Inductive SortCriterion : Set := Relevance | LastUpdatedDate | SubmittedDate.

(** [arxiv.Search(query=..., max_results=..., sort_by=...)] *)
Record Search : Set := mkSearch {
  query : string;
  max_results : Z;
  sort_by : SortCriterion
}.

(** The dict appended to [results] for one paper. *)
Record Entry : Set := mkEntry {
  e_title : string;
  e_authors : string;
  e_published : string;
  e_summary : string;
  e_pdf_url : string;
  e_arxiv_url : string;
  e_categories : string
}.

(** [published.strftime("%Y-%m-%d")] *)
Definition strftime_Ymd (d : Date) : string :=
  zero_pad 4 (year d) +:+ "-" +:+ zero_pad 2 (month d) +:+ "-"
    +:+ zero_pad 2 (day d).

(** The body of the [for paper in client.results(search)] loop. *)
Definition entry_of (paper : Paper) : Entry :=
  let names := take 3 (authors paper) in
  let names :=
    if (3 <? length (authors paper))%nat
    then (names ++ ["... +" +:+ str_nat (length (authors paper) - 3) +:+ " more"])%list
    else names in
  {| e_title := strip (title paper);
     e_authors := join ", " names;
     e_published := strftime_Ymd (published paper);
     e_summary :=
       prefix_slice 300
         (strip (replace_char (ascii_of_nat 10) " "%char (summary paper)))
       +:+ "...";
     e_pdf_url := pdf_url paper;
     e_arxiv_url := entry_id paper;
     e_categories := join ", " (take 3 (categories paper)) |}.

(** The seven lines appended to [output] for entry number [i]. *)
Definition entry_lines (i : nat) (paper : Entry) : list string :=
  [ nl +:+ str_nat i +:+ ". **" +:+ e_title paper +:+ "**";
    "   📅 Published: " +:+ e_published paper;
    "   👥 Authors: " +:+ e_authors paper;
    "   🏷️  Categories: " +:+ e_categories paper;
    "   📄 Summary: " +:+ e_summary paper;
    "   🔗 PDF: " +:+ e_pdf_url paper;
    "   🔗 arXiv: " +:+ e_arxiv_url paper ].

(** One block of lines per entry, numbered from 1. *)
Definition blocks (results : list Entry) : list (list string) :=
  imap (fun i paper => entry_lines (S i) paper) results.

Definition format_output (query : string) (results : list Entry) : string :=
  join nl
    (("Found " +:+ str_nat (length results) +:+ " research papers for '"
        +:+ query +:+ "':" +:+ nl)
       :: concat (blocks results)).

(** What the adapter returns for the [results] list. *)
Definition render (query : string) (results : list Entry) : Outcome string :=
  match results with
  | [] => mret ("No papers found for query: '" +:+ query
                 +:+ "'. Try different keywords or broader terms.")
  | _ => mret (format_output query results)
  end.

Definition on_error : list (Clause string) :=
  [ (Exception, fun e =>
       mret ("Error searching arXiv: " +:+ exn_str e
              +:+ ". Please try again with a different query.")) ].

(** The request built from the caller's arguments. *)
Definition search_request (query : string) (max_results : Z) : Search :=
  let max_results := Z.min max_results 10 in
  {| query := query; max_results := max_results; sort_by := Relevance |}.

Section Adapter.

(** [arxiv.Client().results(search)], run to its end. *)
Variable client_results : Search -> Outcome (list Paper).

(** The [results] list at the end of the loop. *)
Definition collect (query : string) (max_results : Z) : Outcome (list Entry) :=
  papers ← client_results (search_request query max_results);
  mret (map entry_of papers).

Definition search_arxiv (query : string) (max_results : Z) : Outcome string :=
  try_except
    (results ← collect query max_results;
     render query results)
    on_error.

End Adapter.

End ArxivTool.

(** ** The DuckDuckGo client both web adapters call *)

Module Ddgs.

(** One search result, a dict from field name to text. *)
Abbreviation Result := (gmap string string).

(** The arguments of [ddgs.text(...)]; [None] is an argument the call
    does not pass. *)
Record TextCall : Set := mkTextCall {
  keywords : string;
  max_results : Z;
  region : option string;
  safesearch : option string
}.

End Ddgs.

(** ** backend/tools/web_search_tool.py *)

Module WebSearchTool.

Import Ddgs.

(** The three lines appended to [output] for result number [i]. *)
Definition result_lines (i : nat) (result : Result) : list string :=
  let title := dict_get result "title" "No title" in
  let url := dict_get result "href" "No URL" in
  let body := dict_get result "body" "No description" in
  [ nl +:+ str_nat i +:+ ". **" +:+ title +:+ "**";
    "   🔗 " +:+ url;
    "   📝 " +:+ prefix_slice 200 body
      +:+ (if 200 <? len body then "..." else EmptyString) ].

Definition blocks (results : list Result) : list (list string) :=
  imap (fun i result => result_lines (S i) result) results.

Definition format_output (query : string) (results : list Result) : string :=
  join nl
    (("Found " +:+ str_nat (length results) +:+ " web results for '"
        +:+ query +:+ "':" +:+ nl)
       :: concat (blocks results)).

(** What the adapter returns for the [results] list. *)
Definition render (query : string) (results : list Result) : Outcome string :=
  match results with
  | [] => mret ("No web results found for query: '" +:+ query
                 +:+ "'. Try rephrasing or using different keywords.")
  | _ => mret (format_output query results)
  end.

Definition on_error : list (Clause string) :=
  [ (Exception, fun e =>
       mret ("Error searching web: " +:+ exn_str e +:+ ". Please try again.")) ].

(** The call made on the client for the caller's arguments. *)
Definition text_call (query : string) (max_results : Z) : TextCall :=
  let max_results := Z.min max_results 10 in
  {| keywords := query; max_results := max_results;
     region := Some "wt-wt"; safesearch := Some "moderate" |}.

Section Adapter.

(** [with DDGS() as ddgs: list(ddgs.text(...))] *)
Variable ddgs_text : TextCall -> Outcome (list Result).

(** The [results] list. *)
Definition collect (query : string) (max_results : Z) : Outcome (list Result) :=
  ddgs_text (text_call query max_results).

Definition search_web (query : string) (max_results : Z) : Outcome string :=
  try_except
    (results ← collect query max_results;
     render query results)
    on_error.

End Adapter.

End WebSearchTool.

(** ** backend/tools/course_finder_tool.py *)

Module CourseFinderTool.

Import Ddgs.

(** The [search_queries] dict for a topic. *)
Definition search_queries (topic : string) : gmap string string :=
  <[ "courses" := topic +:+ " online course Coursera edX Udacity" ]>
  (<[ "tutorials" := topic +:+ " tutorial documentation getting started" ]>
  (<[ "books" := "best " +:+ topic +:+ " books textbook O'Reilly Manning" ]>
  (<[ "videos" := topic +:+ " video lecture tutorial YouTube" ]> ∅))).

(** [query = search_queries.get(resource_type, search_queries["courses"])] *)
Definition search_query (topic resource_type : string) : Outcome string :=
  fallback ← getitem (search_queries topic) "courses";
  mret (dict_get (search_queries topic) resource_type fallback).

Definition quality_domains : list string :=
  [ "coursera.org"; "edx.org"; "udacity.com"; "mit.edu"; "stanford.edu";
    "youtube.com"; "github.com"; "medium.com"; "towardsdatascience.com";
    "kaggle.com"; "fast.ai"; "deeplearning.ai" ].

Definition from_quality_domain (url : string) : bool :=
  any (fun domain => contains domain url) quality_domains.

Definition ranked (results : list Result) : list Result :=
  let quality_results :=
    filter (fun r => from_quality_domain (dict_get r "href" EmptyString) = true)
           results in
  let other_results := filter (fun r => r ∉ quality_results) results in
  (take 5 quality_results ++ take 3 other_results)%list.

(** The three lines appended to [output] for resource number [i]. *)
Definition resource_lines (i : nat) (result : Result) : list string :=
  let title := dict_get result "title" "No title" in
  let url := dict_get result "href" "No URL" in
  let snippet := prefix_slice 150 (dict_get result "body" "No description") in
  let badge := if from_quality_domain url then "⭐ " else EmptyString in
  [ str_nat i +:+ ". " +:+ badge +:+ "**" +:+ title +:+ "**";
    "   🔗 " +:+ url;
    "   📝 " +:+ snippet +:+ "..." +:+ nl ].

Definition format_output (topic resource_type : string)
    (results : list Result) : string :=
  join nl
    (("🎓 **Learning Resources: " +:+ topic +:+ "** (" +:+ resource_type
        +:+ ")" +:+ nl)
       :: concat (imap (fun i r => resource_lines (S i) r)
                       (take 6 (ranked results)))).

(** [ddgs.text(query, max_results=8)] *)
Definition text_call (query : string) : TextCall :=
  {| keywords := query; max_results := 8; region := None; safesearch := None |}.

(** What the adapter returns for the results of the search. *)
Definition render (topic resource_type : string) (results : list Result)
    : Outcome string :=
  match results with
  | [] => mret ("No " +:+ resource_type +:+ " found for '" +:+ topic +:+ "'")
  | _ => mret (format_output topic resource_type results)
  end.

Definition on_error : list (Clause string) :=
  [ (Exception, fun e => mret ("❌ Error finding resources: " +:+ exn_str e)) ].

Section Adapter.

Variable ddgs_text : TextCall -> Outcome (list Result).

Definition find_learning_resources (topic resource_type : string)
    : Outcome string :=
  try_except
    (query ← search_query topic resource_type;
     results ← ddgs_text (text_call query);
     render topic resource_type results)
    on_error.

End Adapter.

End CourseFinderTool.

(** ** backend/tools/summarization_tool.py *)

Module SummarizationTool.

(** [requests.Response], the fields the adapter reads. *)
Record Response : Set := mkResponse { status_code : Z; content : string }.

(** A page of the parsed PDF: what its [extract_text()] gives. *)
Record Page : Type := mkPage { extract_text : Outcome string }.

(** The arguments [ChatGoogleGenerativeAI(...)] is built with. *)
Record ChatConfig : Type := mkChatConfig {
  model : string;
  temperature : Q;
  api_key : string;
  convert_system_message_to_human : bool
}.

(** [response.raise_for_status()]: an [HTTPError], which is a
    [RequestException], for a 4xx or 5xx status. *)
Definition raise_for_status (url : string) (response : Response) : Outcome unit :=
  if (400 <=? status_code response) && (status_code response <? 600)
  then Raise (mkExn RequestException
                (str_int (status_code response) +:+ " Error for url: " +:+ url))
  else Return tt.

(** The loop [for page_num in range(num_pages)] with
    [num_pages = min(len(pdf_reader.pages), 10)]. *)
Definition num_pages (pages : list Page) : nat := Nat.min (length pages) 10.

Definition extract_pages (pages : list Page) : Outcome (list string) :=
  mapM (fun page_num => page ← item pages page_num; extract_text page)
       (seq 0 (num_pages pages)).

Definition truncation_notice : string :=
  nl +:+ nl +:+ "[Content truncated due to length...]".

(** [if len(full_text) > 30000: full_text = full_text[:30000] + notice] *)
Definition limit_text (full_text : string) : string :=
  if 30000 <? len full_text
  then prefix_slice 30000 full_text +:+ truncation_notice
  else full_text.

Definition focus_prompts : gmap string string :=
  <[ "main findings" := "Focus on the main findings, results, and conclusions." ]>
  (<[ "methodology" := "Focus on the research methodology, experimental setup, and techniques used." ]>
  (<[ "results" := "Focus on the quantitative and qualitative results, performance metrics, and outcomes." ]>
  (<[ "introduction" := "Focus on the problem statement, motivation, and background." ]>
  (<[ "full summary" := "Provide a comprehensive summary covering all aspects." ]> ∅)))).

(** [focus_prompts.get(focus_area.lower(), focus_prompts["main findings"])] *)
Definition focus_instruction (focus_area : string) : Outcome string :=
  fallback ← getitem focus_prompts "main findings";
  mret (dict_get focus_prompts (lower focus_area) fallback).

Definition build_prompt (focus_instruction full_text : string) : string :=
  join nl
    [ "You are analyzing a research paper. " +:+ focus_instruction;
      EmptyString;
      "Please provide a structured summary with:";
      EmptyString;
      "1. **Title & Authors** (if identifiable from the text)";
      "2. **Main Topic** (1-2 sentences)";
      "3. **Key Points** (3-5 bullet points based on focus area)";
      "4. **Main Contributions** (what's new/novel)";
      "5. **Limitations** (if mentioned)";
      EmptyString;
      "Keep the summary concise but informative (300-500 words).";
      EmptyString;
      "---";
      EmptyString;
      "PAPER CONTENT:";
      full_text;
      EmptyString;
      "---";
      EmptyString;
      "STRUCTURED SUMMARY:" ].

(** The three [except] clauses, in their order. *)
Definition on_error : list (Clause string) :=
  [ (is_class RequestException, fun e =>
       mret ("❌ Error downloading PDF: " +:+ exn_str e
              +:+ ". Please check if the URL is accessible."));
    (is_class PdfReadError, fun e =>
       mret ("❌ Error reading PDF: " +:+ exn_str e
              +:+ ". The PDF may be corrupted or password-protected."));
    (Exception, fun e =>
       mret ("❌ Error summarizing paper: " +:+ exn_str e)) ].

Section Adapter.

(** The module-level [settings = get_settings()]. *)
Variable settings : Config.Settings.

(** [requests.get(url, timeout=...)] *)
Variable requests_get : string -> Z -> Outcome Response.

(** [PyPDF2.PdfReader(BytesIO(content)).pages] *)
Variable pdf_reader_pages : string -> Outcome (list Page).

(** [ChatGoogleGenerativeAI(...).invoke(prompt).content] *)
Variable chat_invoke : ChatConfig -> string -> Outcome string.

(** The text of the paper as it is put in the prompt. *)
Definition paper_text (pdf_url : string) : Outcome string :=
  response ← requests_get pdf_url 30;
  _ ← raise_for_status pdf_url response;
  pages ← pdf_reader_pages (content response);
  text_content ← extract_pages pages;
  let full_text := join nl text_content in
  mret (limit_text full_text).

(** The prompt handed to the model. *)
Definition summarization_prompt (pdf_url focus_area : string) : Outcome string :=
  full_text ← paper_text pdf_url;
  instruction ← focus_instruction focus_area;
  mret (build_prompt instruction full_text).

Definition llm_config : ChatConfig :=
  {| model := Config.llm_model settings;
     temperature := Config.llm_temperature settings;
     api_key := Config.google_api_key settings;
     convert_system_message_to_human := true |}.

Definition summarize_paper (pdf_url focus_area : string) : Outcome string :=
  try_except
    (prompt ← summarization_prompt pdf_url focus_area;
     summary ← chat_invoke llm_config prompt;
     mret ("📄 **Paper Summary** (" +:+ focus_area +:+ "):" +:+ nl +:+ nl
             +:+ summary))
    on_error.

End Adapter.

End SummarizationTool.

(** ** backend/agent/state.py and backend/agent/graph.py *)

Module Graph.

(** The tool adapters of the repository, by identity. *)
Inductive Tool : Set :=
| search_arxiv
| search_web
| find_learning_resources
| summarize_paper.

#[global] Instance Tool_eq_dec : EqDecision Tool.
Proof. solve_decision. Defined.

(** The name a tool is called by, the name of its function. *)
Definition tool_name (t : Tool) : string :=
  match t with
  | search_arxiv => "search_arxiv"
  | search_web => "search_web"
  | find_learning_resources => "find_learning_resources"
  | summarize_paper => "summarize_paper"
  end.

(** A tool-invocation request carried by an assistant message. *)
Record ToolCall : Type := mkToolCall {
  name : string;
  args : gmap string string;
  id : string
}.

(** The messages of a conversation.  Only an assistant message has a
    [tool_calls] attribute. *)
Inductive Message : Type :=
| HumanMessage (content : string)
| AIMessage (content : string) (tool_calls : list ToolCall)
| ToolMessage (content : string) (tool_call_id : string).

Definition content (m : Message) : string :=
  match m with
  | HumanMessage c => c
  | AIMessage c _ => c
  | ToolMessage c _ => c
  end.

(** [getattr(m, "tool_calls")] where [hasattr(m, "tool_calls")] *)
Definition tool_calls (m : Message) : option (list ToolCall) :=
  match m with
  | AIMessage _ calls => Some calls
  | _ => None
  end.

(** [class AgentState(TypedDict)]; [iterations] is read with
    [state.get("iterations", 0)], so the key may be absent. *)
Record AgentState : Type := mkState {
  messages : list Message;
  iterations : option Z
}.

(** What a node returns: messages for the [add_messages] reducer and, when
    the node sets it, the new value of [iterations]. *)
Record Update : Type := mkUpdate {
  new_messages : list Message;
  new_iterations : option Z
}.

(** The graph runtime merging a node's return value into the state:
    [messages] through [add_messages] (an append), [iterations] replaced. *)
Definition apply_update (state : AgentState) (u : Update) : AgentState :=
  {| messages := (messages state ++ new_messages u)%list;
     iterations := match new_iterations u with
                   | Some n => Some n
                   | None => iterations state
                   end |}.

(** [tools = [search_arxiv, search_web]] *)
Definition tools : list Tool := [search_arxiv; search_web].

Inductive Route : Set := route_tools | route_end.

(** The string [should_continue] returns. *)
Definition route_label (r : Route) : string :=
  match r with
  | route_tools => "tools"
  | route_end => "end"
  end.

(** [{"response": ..., "iterations": ..., "success": ...}] *)
(** The tool-invocation requests a message carries. *)
Definition requests (m : Message) : list ToolCall := default [] (tool_calls m).

Definition is_assistant (m : Message) : bool :=
  match m with
  | AIMessage _ _ => true
  | _ => false
  end.

(** The assistant messages of a state, oldest first. *)
Definition assistant_messages (state : AgentState) : list Message :=
  List.filter is_assistant (messages state).

Record QueryResult : Type := mkQueryResult {
  response : string;
  result_iterations : Z;
  success : bool
}.

Section Agent.

(** The module-level [settings = get_settings()]. *)
Variable settings : Config.Settings.

(** The chat model: given the tools bound to it and the conversation,
    one assistant message, or a fault. *)
Variable llm : list Tool -> list Message -> Outcome Message.

(** Running one bound tool on the arguments of a request, as the tool
    runtime does. *)
Variable run_tool : Tool -> gmap string string -> Outcome string.

(** [llm_with_tools = llm.bind_tools(tools)] *)
Definition llm_with_tools : list Message -> Outcome Message := llm tools.

Definition llm_node (state : AgentState) : Outcome Update :=
  let messages := messages state in
  response ← llm_with_tools messages;
  let iterations := default 0 (iterations state) + 1 in
  mret {| new_messages := [response]; new_iterations := Some iterations |}.

Definition should_continue (state : AgentState) : Outcome Route :=
  let messages := messages state in
  last_message ← last_item messages;
  let iterations := default 0 (iterations state) in
  if Config.max_iterations settings <? iterations then mret route_end
  else
    match tool_calls last_message with
    | Some (_ :: _) => mret route_tools
    | _ => mret route_end
    end.

(** [tool_node = ToolNode(tools)]: one tool message per request of the
    last message, in the order requested; a name that is not one of
    [tools] is answered with an error text. *)
Definition run_tool_call (call : ToolCall) : Outcome Message :=
  match List.find (fun t => String.eqb (tool_name t) (name call)) tools with
  | Some t =>
      text ← run_tool t (args call);
      mret (ToolMessage text (id call))
  | None =>
      mret (ToolMessage ("Error: " +:+ name call +:+ " is not a valid tool")
                        (id call))
  end.

Definition tool_node (state : AgentState) : Outcome Update :=
  last_message ← last_item (messages state);
  match tool_calls last_message with
  | Some calls =>
      results ← mapM run_tool_call calls;
      mret {| new_messages := results; new_iterations := None |}
  | None => Raise (mkExn ValueError "No AIMessage found in input")
  end.

(** [research_agent.invoke(state)] for the graph of
    [create_research_agent]: entry point [llm], conditional edge
    [should_continue] from [llm] to [tools] or [END], edge from [tools]
    back to [llm].  [fuel] bounds the number of visits of the [llm]
    node; [None] is fuel exhausted.  The first component of the result
    counts the calls of [llm_node] that were made. *)
Fixpoint invoke (fuel : nat) (state : AgentState)
    : option (nat * Outcome AgentState) :=
  match fuel with
  | O => None
  | S fuel' =>
      match llm_node state with
      | Raise e => Some (1%nat, Raise e)
      | Return u =>
          let state := apply_update state u in
          match should_continue state with
          | Raise e => Some (1%nat, Raise e)
          | Return route_end => Some (1%nat, Return state)
          | Return route_tools =>
              match tool_node state with
              | Raise e => Some (1%nat, Raise e)
              | Return u =>
                  match invoke fuel' (apply_update state u) with
                  | Some (n, out) => Some (S n, out)
                  | None => None
                  end
              end
          end
      end
  end.

(** The number of reasoning steps still possible from a state whose
    counter is [k]: the step taken now, and one more per value of the
    counter up to the ceiling. *)
Definition budget (k : Z) : nat :=
  Z.to_nat (Z.max 1 (Config.max_iterations settings + 1 - k)).

(** A model that answers every history with a message requesting tools. *)
Definition always_requests_tools : Prop :=
  forall bound history, exists c call calls,
    llm bound history = Return (AIMessage c (call :: calls)).

(** A tool runtime that answers every request with a text. *)
Definition tools_return : Prop :=
  forall t a, exists text, run_tool t a = Return text.

Definition initial_state (query : string) : AgentState :=
  {| messages := [HumanMessage query]; iterations := Some 0 |}.

(** The body of the [try] of [run_research_query], given what
    [research_agent.invoke] came to. *)
Definition extract_response (result : AgentState) : Outcome QueryResult :=
  final_message ← last_item (messages result);
  iterations ← match iterations result with
               | Some n => Return n
               | None => Raise (mkExn KeyError "'iterations'")
               end;
  mret {| response := content final_message;
          result_iterations := iterations;
          success := true |}.

Definition on_error (e : Exn) : Outcome QueryResult :=
  mret {| response := "I encountered an error: " +:+ exn_str e
                        +:+ ". Please try rephrasing your question.";
          result_iterations := 0;
          success := false |}.

Definition run_research_query (fuel : nat) (query : string)
    : option (Outcome QueryResult) :=
  match invoke fuel (initial_state query) with
  | None => None
  | Some (_, out) =>
      Some (try_except (result ← out; extract_response result)
                       [ (Exception, on_error) ])
  end.

End Agent.

End Graph.

(** ** Concrete collaborators and inputs the statements are run on *)

Module Scenarios.

Import Graph.

(** The settings of a process whose environment sets the two keys only:
    the iteration ceiling is the default, 10. *)
Definition settings10 : Config.Settings :=
  {| Config.groq_api_key := "gk"; Config.google_api_key := "ok";
     Config.llm_model := "gemini-2.5-flash";
     Config.llm_temperature := (7 # 10)%Q;
     Config.max_iterations := 10;
     Config.api_title := "AI Research Assistant";
     Config.api_version := "1.0.0" |}.

Definition arxiv_call (n : nat) : ToolCall :=
  {| name := "search_arxiv";
     args := {[ "query" := "transformers" ]};
     id := "call-" +:+ str_nat n |}.

(** The number of the reasoning turn a history is presented at. *)
Definition turn (history : list Message) : nat :=
  S (length (List.filter is_assistant history)).

(** A model that requests a tool on every turn and numbers its answers. *)
Definition greedy_llm (bound : list Tool) (history : list Message)
    : Outcome Message :=
  Return (AIMessage ("answer of turn " +:+ str_nat (turn history))
                    [arxiv_call (turn history)]).

(** A model that requests paper search once and then answers. *)
Definition one_search_llm (bound : list Tool) (history : list Message)
    : Outcome Message :=
  match turn history with
  | 1%nat => Return (AIMessage EmptyString [arxiv_call 1])
  | _ => Return (AIMessage "Here are papers about transformers." [])
  end.

(** A model whose third call fails after two turns that requested tools. *)
Definition flaky_llm (bound : list Tool) (history : list Message)
    : Outcome Message :=
  match turn history with
  | 3%nat => Raise (mkExn RuntimeError "connection reset")
  | n => Return (AIMessage "searching" [arxiv_call n])
  end.

(** A model that reports the names of the tools bound to it. *)
Definition introspective_llm (bound : list Tool) (history : list Message)
    : Outcome Message :=
  Return (AIMessage (join ", " (map tool_name bound)) []).

Definition tool_runtime (t : Tool) (args : gmap string string) : Outcome string :=
  Return ("output of " +:+ tool_name t).

(** A state past the ceiling whose last message still requests a tool. *)
Definition state_past_ceiling : AgentState :=
  {| messages := [HumanMessage "q"; AIMessage "more" [arxiv_call 11]];
     iterations := Some 11 |}.

Definition state_wants_tool : AgentState :=
  {| messages := [HumanMessage "q"; AIMessage "more" [arxiv_call 1]];
     iterations := Some 1 |}.

Definition state_answered : AgentState :=
  {| messages := [HumanMessage "q"; AIMessage "done" []];
     iterations := Some 10 |}.

Definition sample_paper : ArxivTool.Paper :=
  {| ArxivTool.title := " Attention Is All You Need ";
     ArxivTool.authors := ["A. Vaswani"; "N. Shazeer"; "N. Parmar"; "J. Uszkoreit"];
     ArxivTool.published := {| ArxivTool.year := 2017; ArxivTool.month := 6;
                               ArxivTool.day := 12 |};
     ArxivTool.summary := "The dominant sequence transduction models";
     ArxivTool.pdf_url := "https://arxiv.org/pdf/1706.03762";
     ArxivTool.entry_id := "http://arxiv.org/abs/1706.03762";
     ArxivTool.categories := ["cs.CL"; "cs.LG"] |}.

(** An arXiv client that returns as many papers as the request allows. *)
Definition eager_arxiv (s : ArxivTool.Search)
    : Outcome (list ArxivTool.Paper) :=
  Return (replicate (Z.to_nat (ArxivTool.max_results s)) sample_paper).

Definition sample_result : gmap string string :=
  {[ "title" := "Transformers course";
     "href" := "https://www.coursera.org/learn/transformers";
     "body" := "A course" ]}.

(** A web client that returns as many results as the call allows. *)
Definition eager_ddgs (c : Ddgs.TextCall) : Outcome (list (gmap string string)) :=
  Return (replicate (Z.to_nat (Ddgs.max_results c)) sample_result).




(** A web client that is out of reach. *)
Definition offline_ddgs (c : Ddgs.TextCall) : Outcome (list (gmap string string)) :=
  Raise (mkExn RuntimeError "network unreachable").

(** A text of 30001 characters. *)
Definition long_text : string :=
  String.concat EmptyString (replicate (Z.to_nat 30001) "a").

Definition long_page : SummarizationTool.Page :=
  {| SummarizationTool.extract_text := Return long_text |}.

Definition short_page : SummarizationTool.Page :=
  {| SummarizationTool.extract_text := Return "page" |}.

Definition broken_page : SummarizationTool.Page :=
  {| SummarizationTool.extract_text :=
       Raise (mkExn PdfReadError "cannot decode page") |}.

(** A twelve-page document whose first page is long and whose eleventh
    page cannot be read. *)
Definition twelve_pages : list SummarizationTool.Page :=
  (long_page :: replicate 9 short_page ++ [broken_page; short_page])%list.

(** The texts of its first ten pages. *)
Definition first_ten_texts : list string := long_text :: replicate 9 "page".

Definition http_ok (url : string) (timeout : Z)
    : Outcome SummarizationTool.Response :=
  Return {| SummarizationTool.status_code := 200;
            SummarizationTool.content := "%PDF" |}.

Definition http_unreachable (url : string) (timeout : Z)
    : Outcome SummarizationTool.Response :=
  Raise (mkExn RequestException "Max retries exceeded").

Definition reader_twelve (content : string)
    : Outcome (list SummarizationTool.Page) :=
  Return twelve_pages.

Definition chat_echo (config : SummarizationTool.ChatConfig) (prompt : string)
    : Outcome string :=
  Return "summary".

(** The state at the end of the run with [one_search_llm]. *)
Definition one_search_final : AgentState :=
  {| messages :=
       [ HumanMessage "find papers about transformers";
         AIMessage EmptyString [arxiv_call 1];
         ToolMessage "output of search_arxiv" "call-1";
         AIMessage "Here are papers about transformers." [] ];
     iterations := Some 2 |}.

(** A model that answers at once. *)
Definition direct_llm (bound : list Tool) (history : list Message)
    : Outcome Message :=
  Return (AIMessage "Attention is a weighting of values." []).

(** A tool runtime that always fails. *)
Definition broken_runtime (t : Tool) (args : gmap string string) : Outcome string :=
  Raise (mkExn RuntimeError "tool crashed").

(** A state with no message and a counter far above the ceiling. *)
Definition state_without_messages : AgentState :=
  {| messages := []; iterations := Some 99 |}.

(** Clients that find nothing, and an arXiv client out of reach. *)
Definition empty_arxiv (s : ArxivTool.Search) : Outcome (list ArxivTool.Paper) :=
  Return [].

Definition empty_ddgs (c : Ddgs.TextCall) : Outcome (list (gmap string string)) :=
  Return [].

Definition offline_arxiv (s : ArxivTool.Search) : Outcome (list ArxivTool.Paper) :=
  Raise (mkExn RuntimeError "network unreachable").

(** A result whose description is longer than 200 characters. *)
Definition wordy_result : gmap string string :=
  {[ "title" := "Long read";
     "href" := "https://example.org/long";
     "body" := String.concat EmptyString (replicate 201 "b") ]}.

(** A result from no quality domain, and one without a link. *)
Definition plain_result : gmap string string :=
  {[ "title" := "A blog post";
     "href" := "https://example.org/post";
     "body" := "Notes" ]}.

Definition linkless_result : gmap string string :=
  {[ "title" := "Untitled" ]}.

Definition http_not_found (url : string) (timeout : Z)
    : Outcome SummarizationTool.Response :=
  Return {| SummarizationTool.status_code := 404;
            SummarizationTool.content := EmptyString |}.

(** A model call that fails in the transport layer. *)
Definition chat_offline (config : SummarizationTool.ChatConfig) (prompt : string)
    : Outcome string :=
  Raise (mkExn RequestException "connection refused").

Definition reader_short (content : string)
    : Outcome (list SummarizationTool.Page) :=
  Return [short_page].

End Scenarios.

(** * Properties *)

(** ** Outcomes and exception handling *)

Section PyFacts.

Context {A B : Type}.

Lemma bind_return (a : A) (k : A -> Outcome B) : (Return a ≫= k) = k a.
Proof. reflexivity. Qed.

Lemma bind_raise (e : Exn) (k : A -> Outcome B) : (Raise e ≫= k) = Raise e.
Proof. reflexivity. Qed.

(** A [try] whose clauses end with an [except Exception] that returns
    never lets an exception out, when the earlier handlers return too. *)
Lemma dispatch_returns (clauses : list (Clause A)) (h : Exn -> Outcome A) e :
  returning clauses ->
  (forall e, exists a, h e = Return a) ->
  exists a, dispatch (clauses ++ [(Exception, h)]) e = Return a.
Proof.
  intros Hcl Hh. induction Hcl as [| [accepts handler] rest Hc _ IH]; simpl.
  - apply Hh.
  - destruct (accepts (exn_class e)); [apply Hc | apply IH].
Qed.

Lemma try_except_returns (body : Outcome A) (clauses : list (Clause A))
    (h : Exn -> Outcome A) :
  returning clauses ->
  (forall e, exists a, h e = Return a) ->
  exists a, try_except body (clauses ++ [(Exception, h)]) = Return a.
Proof.
  intros Hcl Hh. destruct body as [a | e]; simpl.
  - by exists a.
  - by apply dispatch_returns.
Qed.

End PyFacts.

(** ** The routing decision *)

Section Routing.

Import Graph.

Variable settings : Config.Settings.

Lemma last_item_Some {T} (l : list T) (x : T) :
  last l = Some x -> last_item l = Return x.
Proof. unfold last_item. by intros ->. Qed.

(** C1.  Once the iteration counter of a state is above the configured
    ceiling, [should_continue] answers "end", whatever the last message
    of the state is: the ceiling check comes before the look at the
    tool-invocation requests. *)
Theorem should_continue_past_ceiling (state : AgentState) (m : Message) :
  last (messages state) = Some m ->
  Config.max_iterations settings < default 0 (iterations state) ->
  should_continue settings state = Return route_end
  /\ route_label route_end = "end".
Proof.
  intros Hlast Hn. split; [| reflexivity].
  unfold should_continue. rewrite (last_item_Some _ _ Hlast). simpl.
  apply Z.ltb_lt in Hn. by rewrite Hn.
Qed.

(** C2.  While the counter is at most the ceiling, [should_continue]
    answers "tools" when the last message carries at least one
    tool-invocation request and "end" when it carries none. *)
Theorem should_continue_within_ceiling (state : AgentState) (m : Message) :
  last (messages state) = Some m ->
  default 0 (iterations state) <= Config.max_iterations settings ->
  (requests m <> [] ->
     should_continue settings state = Return route_tools
     /\ route_label route_tools = "tools")
  /\ (requests m = [] ->
     should_continue settings state = Return route_end
     /\ route_label route_end = "end").
Proof.
  intros Hlast Hn.
  assert (Hlt : (Config.max_iterations settings <? default 0 (iterations state)) = false)
    by (apply Z.ltb_ge; lia).
  unfold should_continue. rewrite (last_item_Some _ _ Hlast). simpl. rewrite Hlt.
  unfold requests. destruct (tool_calls m) as [[| c calls] |]; simpl;
    split; intros H; try done.
Qed.

End Routing.

Lemma should_continue_past_ceiling_witness :
  Graph.should_continue Scenarios.settings10 Scenarios.state_past_ceiling
    = Return Graph.route_end
  /\ Graph.route_label Graph.route_end = "end".
Proof.
  apply (should_continue_past_ceiling Scenarios.settings10
           Scenarios.state_past_ceiling
           (Graph.AIMessage "more" [Scenarios.arxiv_call 11])).
  - reflexivity.
  - simpl. lia.
Defined.

Lemma should_continue_within_ceiling_witness :
  Graph.should_continue Scenarios.settings10 Scenarios.state_wants_tool
    = Return Graph.route_tools
  /\ Graph.should_continue Scenarios.settings10 Scenarios.state_answered
    = Return Graph.route_end.
Proof.
  split.
  - apply (should_continue_within_ceiling Scenarios.settings10
             Scenarios.state_wants_tool
             (Graph.AIMessage "more" [Scenarios.arxiv_call 1])).
    + reflexivity.
    + simpl. lia.
    + discriminate.
  - apply (should_continue_within_ceiling Scenarios.settings10
             Scenarios.state_answered (Graph.AIMessage "done" [])).
    + reflexivity.
    + simpl. lia.
    + reflexivity.
Defined.

(** ** The loop driver *)

Section Loop.

Import Graph.

Variable settings : Config.Settings.
Variable llm : list Tool -> list Message -> Outcome Message.
Variable run_tool : Tool -> gmap string string -> Outcome string.

Local Abbreviation ceiling := (Config.max_iterations settings).
Local Abbreviation counter state := (default 0 (iterations state)).
Local Abbreviation run := (invoke settings llm run_tool).

Lemma llm_node_update state u :
  llm_node llm state = Return u ->
  exists m, llm tools (messages state) = Return m
            /\ u = {| new_messages := [m];
                      new_iterations := Some (counter state + 1) |}.
Proof.
  unfold llm_node, llm_with_tools.
  destruct (llm tools (messages state)) as [m | e]; simpl; [| done].
  intros [= <-]. by exists m.
Qed.

Lemma tool_node_update state u :
  tool_node run_tool state = Return u ->
  new_iterations u = None
  /\ exists m calls, last (messages state) = Some m
       /\ tool_calls m = Some calls
       /\ mapM (run_tool_call run_tool) calls = Return (new_messages u).
Proof.
  unfold tool_node, last_item.
  destruct (last (messages state)) as [m |]; simpl; [| done].
  destruct (tool_calls m) as [calls |] eqn:Hcalls; [| done].
  destruct (mapM (run_tool_call run_tool) calls) as [results | e] eqn:E;
    simpl; [| done].
  intros [= <-]. simpl. split; [done |]. exists m, calls. done.
Qed.

Lemma should_continue_tools state :
  should_continue settings state = Return route_tools ->
  counter state <= ceiling.
Proof.
  unfold should_continue.
  destruct (last_item (messages state)) as [m | e]; simpl; [| done].
  destruct (ceiling <? counter state) eqn:E; [done |].
  intros _. by apply Z.ltb_ge.
Qed.

Lemma budget_pos k : (1 <= budget settings k)%nat.
Proof. unfold budget. lia. Qed.

Lemma budget_step k :
  k + 1 <= ceiling -> budget settings k = S (budget settings (k + 1)).
Proof. unfold budget. lia. Qed.

(** From any state, the run needs no more reasoning steps than the budget
    of the state's counter, whatever the model and the tools answer. *)
Lemma invoke_bounded fuel : forall state,
  (budget settings (counter state) <= fuel)%nat ->
  exists n out, run fuel state = Some (n, out)
                /\ (n <= budget settings (counter state))%nat.
Proof.
  induction fuel as [| fuel IH]; intros state Hfuel.
  - pose proof (budget_pos (counter state)). lia.
  - pose proof (budget_pos (counter state)) as Hpos. simpl.
    destruct (llm_node llm state) as [u | e] eqn:Hllm;
      [| exists 1%nat, (Raise e); split; [done | lia]].
    destruct (llm_node_update _ _ Hllm) as (m & _ & ->).
    set (state1 := apply_update state _).
    destruct (should_continue settings state1) as [[|] | e] eqn:Hroute;
      [| exists 1%nat, (Return state1); split; [done | lia]
       | exists 1%nat, (Raise e); split; [done | lia]].
    apply should_continue_tools in Hroute. simpl in Hroute.
    destruct (tool_node run_tool state1) as [u | e] eqn:Htool;
      [| exists 1%nat, (Raise e); split; [done | lia]].
    destruct (tool_node_update _ _ Htool) as (Hit & _).
    set (state2 := apply_update state1 u).
    assert (Hc : counter state2 = counter state + 1)
      by (unfold state2, apply_update; simpl; by rewrite Hit).
    rewrite (budget_step _ Hroute) in Hfuel.
    destruct (IH state2) as (n & out & Hrun & Hn); [rewrite Hc; lia |].
    rewrite Hrun. exists (S n), out. split; [done |].
    rewrite (budget_step _ Hroute), <- Hc. lia.
Qed.

Lemma run_research_query_returns fuel query n out :
  run fuel (initial_state query) = Some (n, out) ->
  exists r, run_research_query settings llm run_tool fuel query = Some (Return r).
Proof.
  intros Hrun. unfold run_research_query. rewrite Hrun.
  destruct (try_except_returns (out ≫= extract_response) [] on_error)
    as [r Hr]; [constructor | intros e; by eexists |].
  exists r. by rewrite <- Hr.
Qed.

Lemma last_filter {T} (f : T -> bool) (l : list T) (x : T) :
  last l = Some x -> f x = true -> last (List.filter f l) = Some x.
Proof.
  intros [l' ->]%last_Some Hf.
  rewrite List.filter_app. simpl. rewrite Hf. apply last_snoc.
Qed.

Lemma run_tool_calls_return :
  tools_return run_tool ->
  forall calls, exists results,
    mapM (run_tool_call run_tool) calls = Return results
    /\ List.filter is_assistant results = [].
Proof.
  intros Htools. induction calls as [| c calls (results & IH & Hf)]; simpl.
  - by exists [].
  - unfold run_tool_call at 1.
    destruct (find _ tools) as [t |]; simpl.
    + destruct (Htools t (args c)) as [text ->]. simpl. rewrite IH. simpl.
      eexists. split; [done |]. simpl. done.
    + rewrite IH. simpl. eexists. split; [done |]. simpl. done.
Qed.

(** With a model that always requests tools and tools that answer, the run
    from a state whose counter is [d] below the ceiling makes exactly
    [d + 1] reasoning steps and ends on the last assistant message. *)
Lemma greedy_run :
  always_requests_tools llm ->
  tools_return run_tool ->
  forall (d fuel : nat) state k,
    iterations state = Some k ->
    Z.of_nat d = ceiling - k ->
    (S d <= fuel)%nat ->
    exists final m,
      run fuel state = Some (S d, Return final)
      /\ iterations final = Some (ceiling + 1)
      /\ last (messages final) = Some m
      /\ is_assistant m = true
      /\ length (assistant_messages final)
         = (length (assistant_messages state) + S d)%nat.
Proof.
  intros Hllm Htools.
  induction d as [| d IH]; intros fuel state k Hk Hd Hfuel;
    (destruct fuel as [| fuel]; [lia |]); simpl;
    unfold llm_node, llm_with_tools;
    destruct (Hllm tools (messages state)) as (c & call & calls & ->); simpl;
    rewrite Hk; simpl;
    set (reply := AIMessage c (call :: calls));
    set (state1 := apply_update state _);
    assert (Hlast : last_item (messages state1) = Return reply)
      by (apply last_item_Some; simpl; apply last_snoc);
    assert (Hcount : length (assistant_messages state1)
                     = (length (assistant_messages state) + 1)%nat)
      by (unfold assistant_messages; simpl; rewrite List.filter_app;
          simpl; by rewrite length_app);
    unfold should_continue; rewrite Hlast; simpl.
  - replace (ceiling <? k + 1) with true by (symmetry; apply Z.ltb_lt; lia).
    simpl. exists state1, reply. repeat split.
    + simpl. f_equal. lia.
    + simpl. apply last_snoc.
    + done.
  - replace (ceiling <? k + 1) with false by (symmetry; apply Z.ltb_ge; lia).
    unfold tool_node. rewrite Hlast.
    destruct (run_tool_calls_return Htools (call :: calls))
      as (results & Hres & Hnone).
    cbn [mbind Outcome_bind Py.bind mret Outcome_ret tool_calls reply].
    rewrite Hres.
    cbn [mbind Outcome_bind Py.bind mret Outcome_ret].
    set (state2 := apply_update state1 _).
    destruct (IH fuel state2 (k + 1)) as (final & m & Hrun & Hit & Hl & Ha & Hlen);
      [done | lia | lia |].
    rewrite Hrun. exists final, m. repeat split; try done.
    rewrite Hlen. unfold state2, assistant_messages at 1. simpl.
    rewrite List.filter_app, Hnone, app_nil_r.
    change (List.filter is_assistant (messages state ++ [reply]))
      with (assistant_messages state1).
    lia.
Qed.

(** C3.  The loop driver terminates.  With a non-negative ceiling and fuel
    for [ceiling + 1] visits of the reasoning node, whatever the model and
    the tools answer, the run ends after at most [ceiling + 1] reasoning
    steps and [run_research_query] returns a result.  In particular, with
    ceiling 10, a model that requests tools on every turn and tools that
    answer, the run makes 11 reasoning steps and [run_research_query]
    returns success with the content of the 11th assistant message and an
    iteration count of 11. *)
Theorem loop_driver_terminates (query : string) (fuel : nat) :
  0 <= ceiling ->
  (Z.to_nat (ceiling + 1) <= fuel)%nat ->
  (exists n out r,
     run fuel (initial_state query) = Some (n, out)
     /\ Z.of_nat n <= ceiling + 1
     /\ run_research_query settings llm run_tool fuel query = Some (Return r))
  /\ (ceiling = 10 ->
      always_requests_tools llm ->
      tools_return run_tool ->
      exists final m,
        run fuel (initial_state query) = Some (11%nat, Return final)
        /\ length (assistant_messages final) = 11%nat
        /\ assistant_messages final !! 10%nat = Some m
        /\ run_research_query settings llm run_tool fuel query
           = Some (Return {| response := content m;
                             result_iterations := 11;
                             success := true |})).
Proof.
  intros Hceil Hfuel. split.
  - destruct (invoke_bounded fuel (initial_state query))
      as (n & out & Hrun & Hn); [simpl; unfold budget; lia |].
    destruct (run_research_query_returns _ _ _ _ Hrun) as [r Hr].
    exists n, out, r. repeat split; try done.
    simpl in Hn. unfold budget in Hn. lia.
  - intros H10 Hllm Htools.
    destruct (greedy_run Hllm Htools 10 fuel (initial_state query) 0)
      as (final & m & Hrun & Hit & Hl & Ha & Hlen); [done | lia | lia |].
    simpl in Hlen. exists final, m. repeat split; try done.
    + pose proof (last_filter is_assistant _ _ Hl Ha) as Hlf.
      rewrite last_lookup in Hlf. fold (assistant_messages final) in Hlf.
      by rewrite Hlen in Hlf.
    + unfold run_research_query. rewrite Hrun. simpl.
      unfold extract_response. rewrite (last_item_Some _ _ Hl), Hit. simpl.
      by rewrite H10.
Qed.

End Loop.

Lemma loop_driver_terminates_witness :
  exists final m,
    Graph.invoke Scenarios.settings10 Scenarios.greedy_llm Scenarios.tool_runtime
      11 (Graph.initial_state "find papers about transformers")
      = Some (11%nat, Return final)
    /\ length (Graph.assistant_messages final) = 11%nat
    /\ Graph.assistant_messages final !! 10%nat = Some m
    /\ Graph.run_research_query Scenarios.settings10 Scenarios.greedy_llm
         Scenarios.tool_runtime 11 "find papers about transformers"
       = Some (Return {| Graph.response := Graph.content m;
                         Graph.result_iterations := 11;
                         Graph.success := true |}).
Proof.
  apply (loop_driver_terminates Scenarios.settings10 Scenarios.greedy_llm
           Scenarios.tool_runtime "find papers about transformers" 11).
  - simpl. lia.
  - simpl. lia.
  - reflexivity.
  - intros bound history. unfold Scenarios.greedy_llm. by eexists _, _, _.
  - intros t a. unfold Scenarios.tool_runtime. by eexists.
Defined.

(** The run of the witness, evaluated: eleven turns, the eleventh answer. *)
Example greedy_run_evaluated :
  Graph.run_research_query Scenarios.settings10 Scenarios.greedy_llm
    Scenarios.tool_runtime 11 "find papers about transformers"
  = Some (Return {| Graph.response := "answer of turn 11";
                    Graph.result_iterations := 11;
                    Graph.success := true |}).
Proof. vm_compute. reflexivity. Qed.

(** One search, then an answer: two iterations. *)
Example one_search_run_evaluated :
  Graph.run_research_query Scenarios.settings10 Scenarios.one_search_llm
    Scenarios.tool_runtime 11 "find papers about transformers"
  = Some (Return {| Graph.response := "Here are papers about transformers.";
                    Graph.result_iterations := 2;
                    Graph.success := true |}).
Proof. vm_compute. reflexivity. Qed.

(** ** Faults at the boundary of the loop driver *)

Section Faults.

Import Graph.

Variable settings : Config.Settings.
Variable llm : list Tool -> list Message -> Outcome Message.
Variable run_tool : Tool -> gmap string string -> Outcome string.

(** C5.  When a fault reaches [run_research_query], from the run of the
    graph after any number [n] of reasoning steps or from reading the
    result, the driver returns a record with [success] false, the error
    text as response and an iteration count of 0; it never raises. *)
Theorem run_research_query_contains_faults
    (query : string) (fuel n : nat) (out : Outcome AgentState) (e : Exn) :
  invoke settings llm run_tool fuel (initial_state query) = Some (n, out) ->
  (out ≫= extract_response) = Raise e ->
  run_research_query settings llm run_tool fuel query
    = Some (Return {| response := "I encountered an error: " +:+ exn_str e
                         +:+ ". Please try rephrasing your question.";
                      result_iterations := 0;
                      success := false |})
  /\ forall e', run_research_query settings llm run_tool fuel query
                <> Some (Raise e').
Proof.
  intros Hrun Hbody.
  assert (Hres : run_research_query settings llm run_tool fuel query
    = Some (Return {| response := "I encountered an error: " +:+ exn_str e
                         +:+ ". Please try rephrasing your question.";
                      result_iterations := 0;
                      success := false |})).
  { unfold run_research_query. rewrite Hrun. f_equal.
    change (λ result : AgentState, extract_response result)
      with extract_response.
    rewrite Hbody. reflexivity. }
  split; [exact Hres |]. intros e'. rewrite Hres. discriminate.
Qed.

End Faults.

(** ** The tools bound to the model *)

Section Binding.

Import Graph.

Variable llm : list Tool -> list Message -> Outcome Message.

(** C4, as the code has it.  The model is bound to the two tools of
    [tools], paper search and web search, and every call the reasoning
    node makes goes to the model so bound; the resource finder and the
    summarizer are not among the bound tools. *)
Theorem llm_bound_to_two_tools (state : AgentState) :
  (forall history,
     llm_with_tools llm history = llm [search_arxiv; search_web] history)
  /\ (forall t, In t tools <-> t = search_arxiv \/ t = search_web)
  /\ llm_node llm state
     = (response ← llm [search_arxiv; search_web] (messages state);
        mret {| new_messages := [response];
                new_iterations := Some (default 0 (iterations state) + 1) |}).
Proof.
  split; [reflexivity |]. split; [| reflexivity].
  intros t. unfold tools. simpl. split.
  - intros [<- | [<- | []]]; auto.
  - intros [-> | ->]; auto.
Qed.

End Binding.

Lemma run_research_query_contains_faults_witness :
  Graph.run_research_query Scenarios.settings10 Scenarios.flaky_llm
    Scenarios.tool_runtime 11 "find papers about transformers"
  = Some (Return {| Graph.response :=
                      "I encountered an error: connection reset. Please try rephrasing your question.";
                    Graph.result_iterations := 0;
                    Graph.success := false |}).
Proof.
  apply (run_research_query_contains_faults Scenarios.settings10
           Scenarios.flaky_llm Scenarios.tool_runtime
           "find papers about transformers" 11 3
           (Raise (mkExn RuntimeError "connection reset"))
           (mkExn RuntimeError "connection reset")).
  - vm_compute. reflexivity.
  - reflexivity.
Defined.

(** C4, as the claim has it, fails: a model that reports the tools bound to
    it answers differently when bound to [tools] and when bound to the
    four adapters. *)
Lemma four_tools_not_bound :
  ~ (forall (llm : list Graph.Tool -> list Graph.Message -> Outcome Graph.Message)
            (history : list Graph.Message),
       Graph.llm_with_tools llm history
       = llm [Graph.search_arxiv; Graph.search_web;
              Graph.find_learning_resources; Graph.summarize_paper] history).
Proof.
  intros H. specialize (H Scenarios.introspective_llm []).
  vm_compute in H. discriminate H.
Qed.

(** ** The tool adapters *)

Section Adapters.

Variable client_results : ArxivTool.Search -> Outcome (list ArxivTool.Paper).
Variable ddgs_text : Ddgs.TextCall -> Outcome (list (gmap string string)).
Variable settings : Config.Settings.
Variable requests_get : string -> Z -> Outcome SummarizationTool.Response.
Variable pdf_reader_pages : string -> Outcome (list SummarizationTool.Page).
Variable chat_invoke : SummarizationTool.ChatConfig -> string -> Outcome string.

(** C6.  Each of the four adapters returns a text for every input and every
    behaviour of its collaborators, a fault of a collaborator included; it
    never raises. *)
Theorem adapters_never_raise :
  (forall query max_results, exists text,
     ArxivTool.search_arxiv client_results query max_results = Return text)
  /\ (forall query max_results, exists text,
     WebSearchTool.search_web ddgs_text query max_results = Return text)
  /\ (forall topic resource_type, exists text,
     CourseFinderTool.find_learning_resources ddgs_text topic resource_type
     = Return text)
  /\ (forall pdf_url focus_area, exists text,
     SummarizationTool.summarize_paper settings requests_get pdf_reader_pages
       chat_invoke pdf_url focus_area = Return text).
Proof.
  repeat split; intros a b.
  - apply (try_except_returns _ []); [constructor | intros e; by eexists].
  - apply (try_except_returns _ []); [constructor | intros e; by eexists].
  - apply (try_except_returns _ []); [constructor | intros e; by eexists].
  - unfold SummarizationTool.summarize_paper, SummarizationTool.on_error.
    apply (try_except_returns _ [_; _]); [| intros e; by eexists].
    repeat constructor; intros e; by eexists.
Qed.


End Adapters.




(** Asked for 1000 papers of a client that gives all it is allowed, the
    adapter collects ten. *)
Example eager_arxiv_collects_ten :
  (entries ← ArxivTool.collect Scenarios.eager_arxiv "transformers" 1000;
   mret (length entries))
  = Return 10%nat.
Proof. vm_compute. reflexivity. Qed.

(** A failing client gives an error text, not a fault. *)
Example offline_web_search :
  WebSearchTool.search_web Scenarios.offline_ddgs EmptyString 5
  = Return "Error searching web: network unreachable. Please try again.".
Proof. vm_compute. reflexivity. Qed.

(** An unreachable URL gives the download error text. *)
Example unreachable_pdf :
  SummarizationTool.summarize_paper Scenarios.settings10
    Scenarios.http_unreachable Scenarios.reader_twelve Scenarios.chat_echo
    "http://nowhere.invalid/paper.pdf" "main findings"
  = Return "❌ Error downloading PDF: Max retries exceeded. Please check if the URL is accessible.".
Proof. vm_compute. reflexivity. Qed.

(** ** Options outside the known ones *)

Section Fallbacks.

Lemma search_query_unknown (topic resource_type : string) :
  resource_type ∉ ["courses"; "tutorials"; "books"; "videos"] ->
  CourseFinderTool.search_query topic resource_type
  = Return (topic +:+ " online course Coursera edX Udacity").
Proof.
  intros Hout.
  unfold CourseFinderTool.search_query, getitem, CourseFinderTool.search_queries.
  rewrite lookup_insert_eq. simpl. unfold dict_get.
  rewrite !lookup_insert_ne, lookup_empty; [done | ..];
    intros <-; apply Hout; set_solver.
Qed.

Lemma focus_instruction_unknown (focus_area : string) :
  lower focus_area ∉ ["main findings"; "methodology"; "results";
                       "introduction"; "full summary"] ->
  SummarizationTool.focus_instruction focus_area
  = Return "Focus on the main findings, results, and conclusions.".
Proof.
  intros Hout.
  unfold SummarizationTool.focus_instruction, getitem,
    SummarizationTool.focus_prompts.
  rewrite lookup_insert_eq. simpl. unfold dict_get.
  rewrite !lookup_insert_ne, lookup_empty; [done | ..];
    intros Heq; apply Hout; rewrite <- Heq; set_solver.
Qed.

(** C9.  A [resource_type] that is none of the four known ones makes
    [find_learning_resources] run the search of the "courses" entry, and a
    [focus_area] whose lower-case form is none of the five known ones makes
    [summarize_paper] build its prompt with the "main findings"
    instruction; neither is an error. *)
Theorem unknown_options_fall_back (topic resource_type focus_area : string) :
  resource_type ∉ ["courses"; "tutorials"; "books"; "videos"] ->
  lower focus_area ∉ ["main findings"; "methodology"; "results";
                       "introduction"; "full summary"] ->
  (CourseFinderTool.search_query topic resource_type
     = Return (topic +:+ " online course Coursera edX Udacity")
   /\ forall ddgs_text,
        CourseFinderTool.find_learning_resources ddgs_text topic resource_type
        = try_except
            (results ← ddgs_text
                         (CourseFinderTool.text_call
                            (topic +:+ " online course Coursera edX Udacity"));
             CourseFinderTool.render topic resource_type results)
            CourseFinderTool.on_error)
  /\ (SummarizationTool.focus_instruction focus_area
        = Return "Focus on the main findings, results, and conclusions."
      /\ forall requests_get pdf_reader_pages pdf_url,
           SummarizationTool.summarization_prompt requests_get
             pdf_reader_pages pdf_url focus_area
           = (full_text ← SummarizationTool.paper_text requests_get
                            pdf_reader_pages pdf_url;
              mret (SummarizationTool.build_prompt
                      "Focus on the main findings, results, and conclusions."
                      full_text))).
Proof.
  intros Hres Hfocus.
  pose proof (search_query_unknown topic _ Hres) as Hq.
  pose proof (focus_instruction_unknown _ Hfocus) as Hi.
  repeat split; try done.
  - intros ddgs_text. unfold CourseFinderTool.find_learning_resources.
    by rewrite Hq.
  - intros requests_get pdf_reader_pages pdf_url.
    unfold SummarizationTool.summarization_prompt. by rewrite Hi.
Qed.

End Fallbacks.

Lemma unknown_options_fall_back_witness :
  CourseFinderTool.search_query "LangGraph" "podcasts"
    = Return "LangGraph online course Coursera edX Udacity"
  /\ SummarizationTool.focus_instruction "Conclusions"
    = Return "Focus on the main findings, results, and conclusions.".
Proof.
  destruct (unknown_options_fall_back "LangGraph" "podcasts" "Conclusions")
    as [[Hq _] [Hi _]].
  - apply (bool_decide_unpack _). vm_compute. exact I.
  - apply (bool_decide_unpack _). vm_compute. exact I.
  - split; assumption.
Defined.

(** Known options, in any letter case for the focus, select their entry. *)
Example known_options :
  CourseFinderTool.search_query "LangGraph" "books"
    = Return "best LangGraph books textbook O'Reilly Manning"
  /\ SummarizationTool.focus_instruction "Methodology"
    = Return "Focus on the research methodology, experimental setup, and techniques used.".
Proof. split; vm_compute; reflexivity. Qed.

(** ** What the summarizer sends to its model *)

Section SummarizerInput.

Import SummarizationTool.

Lemma substring_length (k : nat) : forall s : string,
  (k <= String.length s)%nat -> String.length (String.substring 0 k s) = k.
Proof.
  induction k as [| k IH]; intros [| c s] Hk; simpl in *; try lia.
  rewrite IH; lia.
Qed.

Lemma substring_is_prefix (k : nat) : forall s : string,
  String.prefix (String.substring 0 k s) s = true.
Proof.
  induction k as [| k IH]; intros [| c s]; simpl; try reflexivity.
  destruct (ascii_dec c c); [apply IH | congruence].
Qed.

Lemma len_prefix_slice (n : Z) (s : string) :
  0 <= n <= len s -> len (prefix_slice n s) = n.
Proof.
  intros Hn. unfold len, prefix_slice in *.
  rewrite substring_length; lia.
Qed.

Lemma mapM_length {T U} (f : T -> Outcome U) : forall l ys,
  mapM f l = Return ys -> length ys = length l.
Proof.
  induction l as [| x l IH]; simpl; intros ys.
  - by intros [= <-].
  - destruct (f x) as [y | e]; simpl; [| done].
    destruct (mapM f l) as [ys' | e]; simpl; [| done].
    intros [= <-]. simpl. f_equal. by apply IH.
Qed.

(** Reading the pages by index from a position on is reading the list. *)
Lemma mapM_item_seq {T U} (f : T -> Outcome U) (n : nat) :
  forall (before l : list T),
    (n <= length l)%nat ->
    mapM (fun i => page ← item (before ++ l)%list i; f page)
         (seq (length before) n)
    = mapM f (take n l).
Proof.
  induction n as [| n IH]; intros before [| x l] Hn; simpl in *; try lia;
    try reflexivity.
  unfold item at 1. rewrite list_lookup_middle by done. simpl.
  destruct (f x) as [y | e]; simpl; [| done].
  specialize (IH (before ++ [x])%list l).
  rewrite <- app_assoc, length_app, Nat.add_1_r in IH. simpl in IH.
  rewrite IH by lia. reflexivity.
Qed.

Lemma extract_pages_first_ten (pages : list Page) :
  extract_pages pages = mapM extract_text (take 10 pages).
Proof.
  unfold extract_pages, num_pages.
  rewrite (mapM_item_seq extract_text _ [] pages) by lia.
  destruct (Nat.min_spec (length pages) 10) as [[Hlt ->] | [Hge ->]];
    [| done].
  by rewrite !take_ge by lia.
Qed.

Lemma focus_instruction_returns (focus_area : string) :
  exists instruction, focus_instruction focus_area = Return instruction.
Proof.
  unfold focus_instruction, getitem, focus_prompts.
  rewrite lookup_insert_eq. simpl. by eexists.
Qed.

(** C10.  For a PDF that was fetched and parsed, the summarizer extracts
    the text of the first 10 pages only, so of at most 10 pages; a text of
    more than 30000 characters is cut to its first 30000 characters
    followed by the truncation notice, a shorter one is kept; the prompt is
    built from the text so bounded. *)
Theorem summarizer_input_bounded
    (requests_get : string -> Z -> Outcome Response)
    (pdf_reader_pages : string -> Outcome (list Page))
    (pdf_url focus_area : string) (response : Response)
    (pages : list Page) (texts : list string) :
  requests_get pdf_url 30 = Return response ->
  raise_for_status pdf_url response = Return tt ->
  pdf_reader_pages (content response) = Return pages ->
  mapM extract_text (take 10 pages) = Return texts ->
  extract_pages pages = Return texts
  /\ (length texts <= 10)%nat
  /\ (30000 < len (join nl texts) ->
      limit_text (join nl texts)
        = prefix_slice 30000 (join nl texts) +:+ truncation_notice
      /\ len (prefix_slice 30000 (join nl texts)) = 30000
      /\ String.prefix (prefix_slice 30000 (join nl texts)) (join nl texts)
         = true)
  /\ (len (join nl texts) <= 30000 ->
      limit_text (join nl texts) = join nl texts)
  /\ exists instruction,
       focus_instruction focus_area = Return instruction
       /\ summarization_prompt requests_get pdf_reader_pages pdf_url focus_area
          = Return (build_prompt instruction (limit_text (join nl texts))).
Proof.
  intros Hget Hstatus Hread Htexts.
  assert (Hextract : extract_pages pages = Return texts)
    by (by rewrite extract_pages_first_ten).
  split; [done |]. split.
  { apply mapM_length in Htexts. rewrite Htexts, length_take. lia. }
  split.
  { intros Hlong. repeat split.
    - unfold limit_text.
      by replace (30000 <? len (join nl texts)) with true
        by (symmetry; by apply Z.ltb_lt).
    - apply len_prefix_slice. lia.
    - apply substring_is_prefix. }
  split.
  { intros Hshort. unfold limit_text.
    by replace (30000 <? len (join nl texts)) with false
      by (symmetry; by apply Z.ltb_ge). }
  destruct (focus_instruction_returns focus_area) as [instruction Hi].
  exists instruction. split; [done |].
  unfold summarization_prompt, paper_text.
  rewrite Hget. simpl. rewrite Hstatus. simpl. rewrite Hread. simpl.
  rewrite Hextract. simpl. by rewrite Hi.
Qed.

End SummarizerInput.

Lemma summarizer_input_bounded_witness :
  SummarizationTool.extract_pages Scenarios.twelve_pages
    = Return Scenarios.first_ten_texts
  /\ SummarizationTool.limit_text (join nl Scenarios.first_ten_texts)
     = prefix_slice 30000 (join nl Scenarios.first_ten_texts)
         +:+ SummarizationTool.truncation_notice
  /\ len (prefix_slice 30000 (join nl Scenarios.first_ten_texts)) = 30000.
Proof.
  destruct (summarizer_input_bounded Scenarios.http_ok Scenarios.reader_twelve
              "https://arxiv.org/pdf/2103.00020.pdf" "methodology"
              {| SummarizationTool.status_code := 200;
                 SummarizationTool.content := "%PDF" |}
              Scenarios.twelve_pages Scenarios.first_ten_texts)
    as (Hextract & _ & Hlong & _); try reflexivity.
  destruct Hlong as (Hcut & Hlen & _); [vm_compute; reflexivity |].
  exact (conj Hextract (conj Hcut Hlen)).
Defined.

(** ** The cached settings *)

Section SettingsCache.

Import Config.

Lemma get_settings_hit (env : Environ) (p : Process) (ref : nat) :
  cache p = Some ref -> get_settings env p = (Return ref, p).
Proof. unfold get_settings. by intros ->. Qed.

Lemma get_settings_returned (env : Environ) (p p' : Process) (ref : nat) :
  get_settings env p = (Return ref, p') -> cache p' = Some ref.
Proof.
  unfold get_settings. destruct (cache p) as [r |] eqn:Hc.
  - by intros [= <- <-].
  - destruct (Settings_init env); [| done]. by intros [= <- <-].
Qed.

Lemma run_calls_hit (envs : list Environ) (p : Process) (ref : nat) :
  cache p = Some ref -> run_calls envs p = p.
Proof.
  intros Hc. unfold run_calls. induction envs as [| env envs IH]; simpl.
  - reflexivity.
  - by rewrite (get_settings_hit env p ref Hc).
Qed.

Lemma get_settings_well_formed (env : Environ) (p : Process) :
  well_formed p -> well_formed (snd (get_settings env p)).
Proof.
  unfold well_formed, get_settings.
  intros [[Hc Hh] | [Hc Hh]]; rewrite Hc.
  - destruct (Settings_init env) as [s | e]; simpl.
    + right. by rewrite Hh.
    + by left.
  - simpl. by right.
Qed.

Lemma run_calls_well_formed (envs : list Environ) : forall p : Process,
  well_formed p -> well_formed (run_calls envs p).
Proof.
  unfold run_calls. induction envs as [| env envs IH]; simpl; intros p Hp.
  - exact Hp.
  - apply IH. by apply get_settings_well_formed.
Qed.

Lemma well_formed_fresh : well_formed fresh.
Proof. by left. Qed.

Lemma well_formed_heap (p : Process) :
  well_formed p -> (length (heap p) <= 1)%nat.
Proof. intros [[_ ->] | [_ ->]]; simpl; lia. Qed.

(** C8.  In a process that starts with nothing cached, whatever the
    environment holds at each call: once a call of [get_settings] has
    returned an object, every later call returns that same object, no call
    in between changes the process state, so the fields read through the
    reference stay what they were, and at no time has more than one
    [Settings] object been built. *)
Theorem get_settings_cached
    (before : list Environ) (env1 : Environ) (ref : nat) (p1 : Process) :
  get_settings env1 (run_calls before fresh) = (Return ref, p1) ->
  forall (between : list Environ) (env2 : Environ),
    get_settings env2 (run_calls between p1) = (Return ref, p1)
    /\ run_calls between p1 = p1
    /\ is_Some (deref p1 ref)
    /\ deref (snd (get_settings env2 (run_calls between p1))) ref
       = deref p1 ref
    /\ forall envs, (length (heap (run_calls envs fresh)) <= 1)%nat.
Proof.
  intros Hfirst between env2.
  pose proof (get_settings_returned _ _ _ _ Hfirst) as Hc.
  pose proof (run_calls_hit between p1 ref Hc) as Hsame.
  pose proof (get_settings_hit env2 p1 ref Hc) as Hsecond.
  assert (Hwf : well_formed p1).
  { replace p1 with (snd (get_settings env1 (run_calls before fresh)))
      by (by rewrite Hfirst).
    apply get_settings_well_formed, run_calls_well_formed, well_formed_fresh. }
  rewrite Hsame, Hsecond. repeat split; try done.
  - unfold deref. destruct Hwf as [[Hn _] | [Hs Hlen]]; [congruence |].
    rewrite Hc in Hs. injection Hs as ->.
    apply lookup_lt_is_Some. lia.
  - intros envs.
    apply well_formed_heap, run_calls_well_formed, well_formed_fresh.
Qed.

End SettingsCache.

Lemma get_settings_cached_witness :
  Config.get_settings Config.env_changed
    (Config.run_calls [Config.env_changed; Config.env_empty]
       {| Config.heap := [Scenarios.settings10]; Config.cache := Some 0%nat |})
  = (Return 0%nat,
     {| Config.heap := [Scenarios.settings10]; Config.cache := Some 0%nat |}).
Proof.
  apply (get_settings_cached [Config.env_empty] Config.env_minimal 0
           {| Config.heap := [Scenarios.settings10]; Config.cache := Some 0%nat |}).
  reflexivity.
Defined.

(** A call with the keys missing raises and caches nothing; the next call
    builds the object; a changed environment is not read again. *)
Example settings_calls_evaluated :
  fst (Config.get_settings Config.env_empty Config.fresh)
    = Raise (Config.missing "groq_api_key")
  /\ Config.run_calls [Config.env_empty; Config.env_minimal; Config.env_changed]
       Config.fresh
     = {| Config.heap := [Scenarios.settings10]; Config.cache := Some 0%nat |}.
Proof. split; reflexivity. Qed.

(** * Further properties of the code *)

(** ** The run of the graph, step by step *)

Section Run.

Import Graph.

Variable settings : Config.Settings.
Variable llm : list Tool -> list Message -> Outcome Message.
Variable run_tool : Tool -> gmap string string -> Outcome string.

Local Abbreviation ceiling := (Config.max_iterations settings).
Local Abbreviation counter state := (default 0 (iterations state)).
Local Abbreviation run := (invoke settings llm run_tool).

Lemma should_continue_end_inv state m :
  last (messages state) = Some m ->
  should_continue settings state = Return route_end ->
  requests m = [] \/ ceiling < counter state.
Proof.
  intros Hlast. unfold should_continue.
  rewrite (last_item_Some _ _ Hlast). simpl.
  destruct (ceiling <? counter state) eqn:E.
  - intros _. right. by apply Z.ltb_lt.
  - unfold requests. destruct (tool_calls m) as [[| c calls] |]; simpl;
      intros H; by (left + discriminate H).
Qed.

(** What holds of a run that ended without a fault, from any state. *)
Lemma invoke_success_inv fuel : forall state n final,
  run fuel state = Some (n, Return final) ->
  exists history m,
    messages final = (history ++ [m])%list
    /\ llm tools history = Return m
    /\ messages state `prefix_of` history
    /\ iterations final = Some (counter state + Z.of_nat n)
    /\ (requests m = [] \/ ceiling < counter state + Z.of_nat n)
    /\ (1 <= n)%nat.
Proof.
  induction fuel as [| fuel IH]; intros state n final; simpl; [done |].
  destruct (llm_node llm state) as [u | e] eqn:Hllm; [| done].
  destruct (llm_node_update _ _ _ Hllm) as (m & Hm & ->).
  set (state1 := apply_update state _).
  destruct (should_continue settings state1) as [[|] | e] eqn:Hroute;
    [| | done].
  - destruct (tool_node run_tool state1) as [u | e] eqn:Htool; [| done].
    destruct (tool_node_update _ _ _ Htool) as (Hit & _).
    set (state2 := apply_update state1 u).
    destruct (run fuel state2) as [[n' out] |] eqn:Hrun; [| done].
    intros [= <- ->].
    destruct (IH _ _ _ Hrun) as (history & m' & Hfinal & Hm' & Hpre & Hcount & Hstop & Hn).
    assert (Hc : counter state2 = counter state + 1)
      by (unfold state2, apply_update; simpl; by rewrite Hit).
    exists history, m'. rewrite Hc in Hcount, Hstop.
    repeat split; try done.
    + etrans; [| exact Hpre]. unfold state2, state1, apply_update. simpl.
      rewrite <- app_assoc. by apply prefix_app_r.
    + rewrite Hcount. f_equal. lia.
    + destruct Hstop as [? | ?]; [by left | right; lia].
    + lia.
  - intros [= <- <-]. exists (messages state), m.
    assert (Hlast : last (messages state1) = Some m)
      by (simpl; apply last_snoc).
    repeat split; try done.
    destruct (should_continue_end_inv _ _ Hlast Hroute) as [? | Hgt];
      [by left | right]. simpl in Hgt. lia.
Qed.

(** X1.  A run of the graph that ends without a fault ends on an answer of
    the model: the final history is the history the model was last called
    on, followed by its answer; the history the run started from is a
    prefix of it; the counter has grown by the number of reasoning steps;
    and the answer carries no tool request or the counter is above the
    ceiling. *)
Theorem invoke_ends_on_model_answer
    (fuel : nat) (state : AgentState) (n : nat) (final : AgentState) :
  run fuel state = Some (n, Return final) ->
  exists history m,
    messages final = (history ++ [m])%list
    /\ llm tools history = Return m
    /\ messages state `prefix_of` messages final
    /\ iterations final = Some (counter state + Z.of_nat n)
    /\ (requests m = [] \/ ceiling < counter state + Z.of_nat n).
Proof.
  intros Hrun.
  destruct (invoke_success_inv _ _ _ _ Hrun)
    as (history & m & Hfinal & Hm & Hpre & Hcount & Hstop & _).
  exists history, m. repeat split; try done.
  rewrite Hfinal. by apply prefix_app_r.
Qed.


(** X3.  When the model's first answer carries no tool request, or the
    ceiling is below 1, the run is that single reasoning step: no tool is
    run, whatever the tool runtime would do, and the driver returns the
    answer with an iteration count of 1. *)
Theorem single_step_run (fuel : nat) (query : string) (m : Message) :
  llm tools [HumanMessage query] = Return m ->
  requests m = [] \/ ceiling < 1 ->
  run (S fuel) (initial_state query)
    = Some (1%nat, Return {| messages := [HumanMessage query; m];
                             iterations := Some 1 |})
  /\ run_research_query settings llm run_tool (S fuel) query
     = Some (Return {| response := content m;
                       result_iterations := 1;
                       success := true |}).
Proof.
  intros Hm Hstop.
  assert (Hrun : run (S fuel) (initial_state query)
    = Some (1%nat, Return {| messages := [HumanMessage query; m];
                             iterations := Some 1 |})).
  { assert (Hnode : llm_node llm (initial_state query)
              = Return {| new_messages := [m]; new_iterations := Some 1 |})
      by (unfold llm_node, llm_with_tools; simpl; by rewrite Hm).
    assert (Hroute : should_continue settings
                       {| messages := [HumanMessage query; m];
                          iterations := Some 1 |} = Return route_end).
    { unfold should_continue, last_item. simpl.
      destruct (ceiling <? 1) eqn:E; [done |].
      destruct Hstop as [Hreq | Hlt]; [| apply Z.ltb_ge in E; lia].
      unfold requests in Hreq.
      by destruct (tool_calls m) as [[| c calls] |]. }
    cbn [invoke]. rewrite Hnode.
    change (apply_update (initial_state query)
              {| new_messages := [m]; new_iterations := Some 1 |})
      with {| messages := [HumanMessage query; m]; iterations := Some 1 |}.
    by rewrite Hroute. }
  split; [exact Hrun |].
  unfold run_research_query. by rewrite Hrun.
Qed.

(** X4.  On an empty history [should_continue] raises [IndexError],
    above the ceiling as well: the last message is read before the
    ceiling is looked at. *)
Theorem should_continue_empty_history (state : AgentState) :
  messages state = [] ->
  exists e, should_continue settings state = Raise e
            /\ exn_class e = IndexError.
Proof.
  intros Hempty. unfold should_continue, last_item. rewrite Hempty. simpl.
  by eexists.
Qed.

(** X5.  [should_continue] answers "tools" exactly for a state with a last
    message that carries at least one tool request and a counter that is
    at most the ceiling. *)
Theorem should_continue_tools_iff (state : AgentState) :
  should_continue settings state = Return route_tools
  <-> exists m, last (messages state) = Some m
                /\ requests m <> []
                /\ counter state <= ceiling.
Proof.
  unfold should_continue, last_item, requests. split.
  - destruct (last (messages state)) as [m |]; simpl; [| done].
    destruct (ceiling <? counter state) eqn:E; [done |].
    apply Z.ltb_ge in E.
    destruct (tool_calls m) as [[| c calls] |] eqn:Hcalls; try done.
    intros _. exists m. rewrite Hcalls. by repeat split.
  - intros (m & -> & Hreq & Hle). simpl.
    replace (ceiling <? counter state) with false
      by (symmetry; apply Z.ltb_ge; lia).
    by destruct (tool_calls m) as [[| c calls] |].
Qed.

End Run.

Lemma invoke_ends_on_model_answer_witness :
  exists history m,
    Graph.messages Scenarios.one_search_final = (history ++ [m])%list
    /\ Scenarios.one_search_llm Graph.tools history = Return m
    /\ Graph.messages (Graph.initial_state "find papers about transformers")
         `prefix_of` Graph.messages Scenarios.one_search_final
    /\ Graph.iterations Scenarios.one_search_final = Some (0 + Z.of_nat 2)
    /\ (Graph.requests m = []
        \/ Config.max_iterations Scenarios.settings10 < 0 + Z.of_nat 2).
Proof.
  apply (invoke_ends_on_model_answer Scenarios.settings10
           Scenarios.one_search_llm Scenarios.tool_runtime 11
           (Graph.initial_state "find papers about transformers") 2
           Scenarios.one_search_final).
  vm_compute. reflexivity.
Defined.


Lemma single_step_run_witness :
  Graph.run_research_query Scenarios.settings10 Scenarios.direct_llm
    Scenarios.broken_runtime 1 "what is attention?"
  = Some (Return {| Graph.response := "Attention is a weighting of values.";
                    Graph.result_iterations := 1;
                    Graph.success := true |}).
Proof.
  apply (single_step_run Scenarios.settings10 Scenarios.direct_llm
           Scenarios.broken_runtime 0 "what is attention?"
           (Graph.AIMessage "Attention is a weighting of values." [])).
  - reflexivity.
  - left. reflexivity.
Defined.

Lemma should_continue_empty_history_witness :
  exists e,
    Graph.should_continue Scenarios.settings10 Scenarios.state_without_messages
      = Raise e
    /\ exn_class e = IndexError.
Proof.
  apply (should_continue_empty_history Scenarios.settings10
           Scenarios.state_without_messages).
  reflexivity.
Defined.

Lemma should_continue_tools_iff_witness :
  exists m, last (Graph.messages Scenarios.state_wants_tool) = Some m
            /\ Graph.requests m <> []
            /\ default 0 (Graph.iterations Scenarios.state_wants_tool)
               <= Config.max_iterations Scenarios.settings10.
Proof.
  apply (should_continue_tools_iff Scenarios.settings10
           Scenarios.state_wants_tool).
  reflexivity.
Defined.

(** ** Building the settings *)

Section SettingsInit.

Import Config.

(** X6.  [Settings()] raises a validation error when one of the two API
    keys is not set and when [llm_temperature] or [max_iterations] is set
    to a text that does not parse.  When it returns, the object carries
    the keys of the environment, and [llm_model] and [max_iterations] are
    the value of the environment when there is one and the default of the
    class otherwise. *)
Theorem Settings_init_validation (env : Environ) :
  (env_groq_api_key env = None
   \/ env_google_api_key env = None
   \/ (exists raw, env_llm_temperature env = Unparseable raw)
   \/ (exists raw, env_max_iterations env = Unparseable raw) ->
   exists e, Settings_init env = Raise e /\ exn_class e = ValidationError)
  /\ (forall s, Settings_init env = Return s ->
        env_groq_api_key env = Some (groq_api_key s)
        /\ env_google_api_key env = Some (google_api_key s)
        /\ llm_model s = default "gemini-2.5-flash" (env_llm_model env)
        /\ max_iterations s = match env_max_iterations env with
                              | Parsed n => n
                              | _ => 10
                              end).
Proof.
  unfold Settings_init. split.
  - intros [Hg | [Hg | [[raw Ht] | [raw Hm]]]].
    + rewrite Hg. by eexists.
    + rewrite Hg. destruct (env_groq_api_key env); by eexists.
    + rewrite Ht.
      destruct (env_groq_api_key env), (env_google_api_key env);
        simpl; by eexists.
    + rewrite Hm.
      destruct (env_groq_api_key env), (env_google_api_key env),
               (env_llm_temperature env); simpl; by eexists.
  - intros s.
    destruct (env_groq_api_key env) as [groq |],
             (env_google_api_key env) as [google |]; try done.
    destruct (env_llm_temperature env), (env_max_iterations env);
      simpl; try done; by intros [= <-].
Qed.

Lemma run_calls_failing (failing : list Environ) (p : Process) :
  cache p = None ->
  Forall (fun env => exists e, Settings_init env = Raise e) failing ->
  run_calls failing p = p.
Proof.
  intros Hc Hfail. unfold run_calls.
  induction Hfail as [| env failing [e He] _ IH]; simpl; [done |].
  unfold get_settings at 2. by rewrite Hc, He.
Qed.

(** X7.  A call of [get_settings] that raises caches nothing and leaves
    the process as it was; after any number of such calls, the first call
    whose [Settings()] succeeds builds the object from the environment of
    that call and returns a reference to it. *)
Theorem get_settings_failure_not_cached
    (failing : list Environ) (env : Environ) (s : Settings) :
  Forall (fun env => exists e, Settings_init env = Raise e) failing ->
  Settings_init env = Return s ->
  run_calls failing fresh = fresh
  /\ exists ref p,
       get_settings env (run_calls failing fresh) = (Return ref, p)
       /\ deref p ref = Some s
       /\ cache p = Some ref.
Proof.
  intros Hfail Hs.
  pose proof (run_calls_failing failing fresh eq_refl Hfail) as Hsame.
  split; [exact Hsame |]. rewrite Hsame.
  unfold get_settings. simpl. rewrite Hs. by eexists _, _.
Qed.

End SettingsInit.

Lemma Settings_init_validation_witness :
  exists e, Config.Settings_init Config.env_bad_ceiling = Raise e
            /\ exn_class e = ValidationError.
Proof.
  apply (Settings_init_validation Config.env_bad_ceiling).
  right. right. right. by exists "ten".
Defined.

Lemma get_settings_failure_not_cached_witness :
  Config.run_calls [Config.env_empty; Config.env_empty] Config.fresh
    = Config.fresh
  /\ exists ref p,
       Config.get_settings Config.env_changed
         (Config.run_calls [Config.env_empty; Config.env_empty] Config.fresh)
         = (Return ref, p)
       /\ Config.deref p ref
          = Some {| Config.groq_api_key := "gk2";
                    Config.google_api_key := "ok2";
                    Config.llm_model := "other-model";
                    Config.llm_temperature := (1 # 5)%Q;
                    Config.max_iterations := 3;
                    Config.api_title := "AI Research Assistant";
                    Config.api_version := "1.0.0" |}
       /\ Config.cache p = Some ref.
Proof.
  apply (get_settings_failure_not_cached
           [Config.env_empty; Config.env_empty] Config.env_changed).
  - repeat constructor; by eexists.
  - reflexivity.
Defined.

(** ** Strings: lengths and characters *)

Section StringFacts.

Lemma length_append (s1 s2 : string) :
  String.length (s1 +:+ s2) = (String.length s1 + String.length s2)%nat.
Proof. induction s1 as [| c s1 IH]; simpl; [done | by rewrite IH]. Qed.

Lemma substring_length_le (k : nat) : forall s : string,
  (String.length (String.substring 0 k s) <= k)%nat.
Proof.
  induction k as [| k IH]; intros [| c s]; simpl; try lia.
  specialize (IH s). lia.
Qed.

Lemma substring_all (k : nat) : forall s : string,
  (String.length s <= k)%nat -> String.substring 0 k s = s.
Proof.
  induction k as [| k IH]; intros [| c s] Hk; simpl in *; try done; try lia.
  rewrite IH; [done | lia].
Qed.

Lemma chars_append (s1 s2 : string) :
  list_ascii_of_string (s1 +:+ s2)
  = (list_ascii_of_string s1 ++ list_ascii_of_string s2)%list.
Proof. induction s1 as [| c s1 IH]; simpl; [done | by rewrite IH]. Qed.

Lemma chars_substring (c : ascii) (k : nat) : forall s : string,
  c ∈ list_ascii_of_string (String.substring 0 k s) ->
  c ∈ list_ascii_of_string s.
Proof.
  induction k as [| k IH]; intros [| d s]; simpl; try done.
  - by intros ?%elem_of_nil.
  - intros [-> | Hin]%elem_of_cons; [left | right; by apply IH].
Qed.

Lemma chars_lstrip (c : ascii) : forall s : string,
  c ∈ list_ascii_of_string (lstrip s) -> c ∈ list_ascii_of_string s.
Proof.
  induction s as [| d s IH]; simpl; [done |].
  destruct (is_space d); [| done]. intros Hin. right. by apply IH.
Qed.

Lemma chars_rstrip (c : ascii) : forall s : string,
  c ∈ list_ascii_of_string (rstrip s) -> c ∈ list_ascii_of_string s.
Proof.
  induction s as [| d s IH]; simpl; [done |].
  destruct (rstrip s) as [| d' r] eqn:Hr.
  - destruct (is_space d); simpl.
    + by intros ?%elem_of_nil.
    + intros [-> | ?%elem_of_nil]%elem_of_cons; [left | done].
  - simpl. intros [-> | Hin]%elem_of_cons; [left | right].
    apply IH. exact Hin.
Qed.

Lemma chars_replace (a b : ascii) : forall s : string,
  a <> b -> a ∉ list_ascii_of_string (replace_char a b s).
Proof.
  intros s Hab. induction s as [| d s IH]; simpl.
  - apply not_elem_of_nil.
  - apply not_elem_of_cons. split; [| exact IH].
    destruct (Ascii.eqb d a) eqn:E; [done |].
    apply Ascii.eqb_neq in E. congruence.
Qed.

End StringFacts.

(** ** The paper search adapter, further *)

Section ArxivFacts.

Import ArxivTool.

(** X8.  A requested [max_results] of at most 10 is passed to the client
    as it is by both search adapters, zero and negative values included:
    the clamp has no lower bound. *)
Theorem small_limits_pass_unchanged (query : string) (n : Z) :
  n <= 10 ->
  max_results (search_request query n) = n
  /\ Ddgs.max_results (WebSearchTool.text_call query n) = n.
Proof. intros Hn. simpl. lia. Qed.

(** X9.  The summary shown for a paper is at most 303 characters long, has
    no line break in it and ends with the three dots, whatever the paper's
    summary is. *)
Theorem entry_summary_bounded (paper : Paper) :
  (String.length (e_summary (entry_of paper)) <= 303)%nat
  /\ (ascii_of_nat 10 ∉ list_ascii_of_string (e_summary (entry_of paper)))
  /\ exists cut, e_summary (entry_of paper) = cut +:+ "...".
Proof.
  simpl. unfold prefix_slice. split; [| split].
  - rewrite length_append. simpl.
    pose proof (substring_length_le (Z.to_nat 300)
                  (strip (replace_char (ascii_of_nat 10) " " (summary paper)))).
    lia.
  - rewrite chars_append. intros [Hin | Hin]%elem_of_app.
    + apply chars_substring, chars_rstrip, chars_lstrip in Hin.
      by apply (chars_replace (ascii_of_nat 10) " "%char (summary paper)).
    + simpl in Hin. rewrite !elem_of_cons, elem_of_nil in Hin.
      vm_compute in Hin. by destruct Hin as [? | [? | [? | []]]].
  - by eexists.
Qed.

(** X10.  The blocks of the formatted text follow the order of the papers
    the client returned and are numbered from 1: the block at position [i]
    is the one of the paper at position [i], with number [i + 1]; every
    block has seven lines.  The same holds of the web results, with three
    lines a block. *)
Theorem blocks_numbered_in_order
    (papers : list Paper) (results : list (gmap string string)) (i : nat) :
  (forall paper, papers !! i = Some paper ->
     blocks (map entry_of papers) !! i
     = Some (entry_lines (S i) (entry_of paper)))
  /\ (forall result, results !! i = Some result ->
     WebSearchTool.blocks results !! i
     = Some (WebSearchTool.result_lines (S i) result))
  /\ Forall (fun block => length block = 7%nat) (blocks (map entry_of papers))
  /\ Forall (fun block => length block = 3%nat) (WebSearchTool.blocks results).
Proof.
  unfold blocks, WebSearchTool.blocks. repeat split.
  - intros paper Hp. by rewrite list_lookup_imap, list_lookup_fmap, Hp.
  - intros result Hr. by rewrite list_lookup_imap, Hr.
  - apply Forall_forall. intros block [j [e [-> _]]]%elem_of_lookup_imap.
    reflexivity.
  - apply Forall_forall. intros block [j [e [-> _]]]%elem_of_lookup_imap.
    reflexivity.
Qed.

End ArxivFacts.

Lemma small_limits_pass_unchanged_witness :
  ArxivTool.max_results (ArxivTool.search_request "agents" (-3)) = -3
  /\ Ddgs.max_results (WebSearchTool.text_call "agents" (-3)) = -3.
Proof.
  apply (small_limits_pass_unchanged "agents" (-3)). lia.
Defined.

Lemma blocks_numbered_in_order_witness :
  ArxivTool.blocks (map ArxivTool.entry_of
                      [Scenarios.sample_paper; Scenarios.sample_paper]) !! 1%nat
  = Some (ArxivTool.entry_lines 2 (ArxivTool.entry_of Scenarios.sample_paper)).
Proof.
  apply (blocks_numbered_in_order
           [Scenarios.sample_paper; Scenarios.sample_paper] [] 1).
  reflexivity.
Defined.

(** The entry of the sample paper: title stripped, three authors and a
    count of the rest, the date on ten characters. *)
Example sample_entry :
  ArxivTool.entry_of Scenarios.sample_paper
  = {| ArxivTool.e_title := "Attention Is All You Need";
       ArxivTool.e_authors := "A. Vaswani, N. Shazeer, N. Parmar, ... +1 more";
       ArxivTool.e_published := "2017-06-12";
       ArxivTool.e_summary := "The dominant sequence transduction models...";
       ArxivTool.e_pdf_url := "https://arxiv.org/pdf/1706.03762";
       ArxivTool.e_arxiv_url := "http://arxiv.org/abs/1706.03762";
       ArxivTool.e_categories := "cs.CL, cs.LG" |}.
Proof. vm_compute. reflexivity. Qed.

(** ** The search adapters on empty results and faults *)

Section SearchEdges.

Variable client_results : ArxivTool.Search -> Outcome (list ArxivTool.Paper).
Variable ddgs_text : Ddgs.TextCall -> Outcome (list (gmap string string)).

Lemma search_query_returns (topic resource_type : string) :
  exists query, CourseFinderTool.search_query topic resource_type = Return query.
Proof.
  unfold CourseFinderTool.search_query, getitem, CourseFinderTool.search_queries.
  rewrite lookup_insert_eq. simpl. by eexists.
Qed.

(** X11.  When the client finds nothing, each of the three search adapters
    returns its own "nothing found" text, which names the query, or the
    resource type and the topic as the caller gave them. *)
Theorem empty_results_texts (query : string) (n : Z) (topic resource_type : string) :
  (forall s, client_results s = Return []) ->
  (forall c, ddgs_text c = Return []) ->
  ArxivTool.search_arxiv client_results query n
    = Return ("No papers found for query: '" +:+ query
               +:+ "'. Try different keywords or broader terms.")
  /\ WebSearchTool.search_web ddgs_text query n
    = Return ("No web results found for query: '" +:+ query
               +:+ "'. Try rephrasing or using different keywords.")
  /\ CourseFinderTool.find_learning_resources ddgs_text topic resource_type
    = Return ("No " +:+ resource_type +:+ " found for '" +:+ topic +:+ "'").
Proof.
  intros Harxiv Hddgs. repeat split.
  - unfold ArxivTool.search_arxiv, ArxivTool.collect. by rewrite Harxiv.
  - unfold WebSearchTool.search_web, WebSearchTool.collect. by rewrite Hddgs.
  - unfold CourseFinderTool.find_learning_resources.
    destruct (search_query_returns topic resource_type) as [q ->]. simpl.
    by rewrite Hddgs.
Qed.

(** X12.  When the client raises, each of the three search adapters
    returns its error text with the message of the exception in it. *)
Theorem client_fault_texts
    (query : string) (n : Z) (topic resource_type : string) (e : Exn) :
  (forall s, client_results s = Raise e) ->
  (forall c, ddgs_text c = Raise e) ->
  ArxivTool.search_arxiv client_results query n
    = Return ("Error searching arXiv: " +:+ exn_str e
               +:+ ". Please try again with a different query.")
  /\ WebSearchTool.search_web ddgs_text query n
    = Return ("Error searching web: " +:+ exn_str e +:+ ". Please try again.")
  /\ CourseFinderTool.find_learning_resources ddgs_text topic resource_type
    = Return ("❌ Error finding resources: " +:+ exn_str e).
Proof.
  intros Harxiv Hddgs. repeat split.
  - unfold ArxivTool.search_arxiv, ArxivTool.collect. by rewrite Harxiv.
  - unfold WebSearchTool.search_web, WebSearchTool.collect. by rewrite Hddgs.
  - unfold CourseFinderTool.find_learning_resources.
    destruct (search_query_returns topic resource_type) as [q ->]. simpl.
    by rewrite Hddgs.
Qed.

End SearchEdges.

Lemma empty_results_texts_witness :
  ArxivTool.search_arxiv Scenarios.empty_arxiv "zzzz" 5
    = Return "No papers found for query: 'zzzz'. Try different keywords or broader terms."
  /\ WebSearchTool.search_web Scenarios.empty_ddgs "zzzz" 5
    = Return "No web results found for query: 'zzzz'. Try rephrasing or using different keywords."
  /\ CourseFinderTool.find_learning_resources Scenarios.empty_ddgs "zzzz" "podcasts"
    = Return "No podcasts found for 'zzzz'".
Proof.
  apply (empty_results_texts Scenarios.empty_arxiv Scenarios.empty_ddgs
           "zzzz" 5 "zzzz" "podcasts").
  - reflexivity.
  - reflexivity.
Defined.

Lemma client_fault_texts_witness :
  ArxivTool.search_arxiv Scenarios.offline_arxiv EmptyString 5
    = Return "Error searching arXiv: network unreachable. Please try again with a different query."
  /\ WebSearchTool.search_web Scenarios.offline_ddgs EmptyString 5
    = Return "Error searching web: network unreachable. Please try again."
  /\ CourseFinderTool.find_learning_resources Scenarios.offline_ddgs
       EmptyString "courses"
    = Return "❌ Error finding resources: network unreachable".
Proof.
  apply (client_fault_texts Scenarios.offline_arxiv Scenarios.offline_ddgs
           EmptyString 5 EmptyString "courses"
           (mkExn RuntimeError "network unreachable")).
  - reflexivity.
  - reflexivity.
Defined.

(** ** Web results and learning resources *)

Section WebFacts.

Import Ddgs.

Lemma append_empty_r (s : string) : s +:+ EmptyString = s.
Proof.
  induction s as [| c s IH]; [reflexivity |].
  change (String c (s +:+ EmptyString) = String c s). by rewrite IH.
Qed.

(** X13.  The description line of a web result shows a description of at
    most 200 characters whole and nothing after it; of a longer one it
    shows the first 200 characters followed by three dots. *)
Theorem web_snippet_shape (i : nat) (result : Result) (body : string) :
  dict_get result "body" "No description" = body ->
  (len body <= 200 ->
     WebSearchTool.result_lines i result !! 2%nat = Some ("   📝 " +:+ body))
  /\ (200 < len body ->
     WebSearchTool.result_lines i result !! 2%nat
       = Some ("   📝 " +:+ prefix_slice 200 body +:+ "...")
     /\ len (prefix_slice 200 body) = 200).
Proof.
  intros Hbody. unfold WebSearchTool.result_lines. rewrite Hbody. simpl.
  split.
  - intros Hshort.
    replace (200 <? len body) with false by (symmetry; by apply Z.ltb_ge).
    unfold prefix_slice. rewrite substring_all by (unfold len in Hshort; lia).
    cbv iota. by rewrite append_empty_r.
  - intros Hlong.
    replace (200 <? len body) with true by (symmetry; by apply Z.ltb_lt).
    split; [done |]. apply len_prefix_slice. lia.
Qed.

Import CourseFinderTool.

(** X14.  The ranking of the learning resources puts at most five results
    from the quality domains first and at most three of the others after
    them and takes every one of them from the results of the search; the
    text [format_output] builds is the header followed by the blocks of
    the first six ranked results, so of at most six. *)
Theorem ranked_shape (results : list Result) :
  exists quality others,
    ranked results = (quality ++ others)%list
    /\ (length quality <= 5)%nat
    /\ (length others <= 3)%nat
    /\ Forall (fun r => from_quality_domain (dict_get r "href" EmptyString) = true)
              quality
    /\ Forall (fun r => from_quality_domain (dict_get r "href" EmptyString) = false)
              others
    /\ (forall r, r ∈ ranked results -> r ∈ results)
    /\ forall topic resource_type, exists shown,
         shown = take 6 (quality ++ others)%list
         /\ (length shown <= 6)%nat
         /\ format_output topic resource_type results
            = join nl
                (("🎓 **Learning Resources: " +:+ topic +:+ "** ("
                    +:+ resource_type +:+ ")" +:+ nl)
                   :: concat (imap (fun i r => resource_lines (S i) r) shown))
         /\ (length (imap (fun i r => resource_lines (S i) r) shown) <= 6)%nat.
Proof.
  unfold ranked.
  set (quality_results := filter _ results).
  set (other_results := filter _ results).
  exists (take 5 quality_results), (take 3 other_results).
  split; [done |].
  split; [rewrite length_take; lia |].
  split; [rewrite length_take; lia |].
  split.
  { apply Forall_take, Forall_forall.
    by intros r [Hq _]%list_elem_of_filter. }
  split.
  { apply Forall_take, Forall_forall.
    intros r [Hnot Hin]%list_elem_of_filter.
    destruct (from_quality_domain (dict_get r "href" EmptyString)) eqn:E;
      [| done].
    exfalso. apply Hnot. by apply list_elem_of_filter. }
  split.
  { intros r [Hin | Hin]%elem_of_app.
    - apply elem_of_take in Hin as (j & Hj & _).
      apply list_elem_of_lookup_2 in Hj.
      by apply list_elem_of_filter in Hj as [_ ?].
    - apply elem_of_take in Hin as (j & Hj & _).
      apply list_elem_of_lookup_2 in Hj.
      by apply list_elem_of_filter in Hj as [_ ?]. }
  intros topic resource_type.
  exists (take 6 (take 5 quality_results ++ take 3 other_results)%list).
  split; [done |].
  split; [rewrite length_take; lia |].
  split; [reflexivity |].
  rewrite length_imap, length_take. lia.
Qed.

(** X15.  A resource is shown with the star exactly when the ranking
    counted it among the quality results: the test of the link shown, with
    its "No URL" default, agrees with the test the ranking made. *)
Theorem star_marks_quality (i : nat) (result : Result) :
  from_quality_domain (dict_get result "href" "No URL")
    = from_quality_domain (dict_get result "href" EmptyString)
  /\ resource_lines i result !! 0%nat
     = Some (str_nat i +:+ ". "
               +:+ (if from_quality_domain (dict_get result "href" EmptyString)
                    then "⭐ " else EmptyString)
               +:+ "**" +:+ dict_get result "title" "No title" +:+ "**").
Proof.
  assert (Hsame : from_quality_domain (dict_get result "href" "No URL")
                  = from_quality_domain (dict_get result "href" EmptyString)).
  { unfold dict_get. destruct (result !! "href"); simpl; [done |].
    vm_compute. reflexivity. }
  split; [exact Hsame |].
  unfold resource_lines. simpl. by rewrite Hsame.
Qed.

End WebFacts.

Lemma web_snippet_shape_witness :
  WebSearchTool.result_lines 1 Scenarios.wordy_result !! 2%nat
    = Some ("   📝 " +:+ prefix_slice 200
                            (String.concat EmptyString (replicate 201 "b"))
              +:+ "...")
  /\ WebSearchTool.result_lines 1 Scenarios.sample_result !! 2%nat
    = Some "   📝 A course".
Proof.
  split.
  - apply (web_snippet_shape 1 Scenarios.wordy_result
             (String.concat EmptyString (replicate 201 "b"))).
    + vm_compute. reflexivity.
    + vm_compute. reflexivity.
  - apply (web_snippet_shape 1 Scenarios.sample_result "A course").
    + vm_compute. reflexivity.
    + vm_compute. discriminate.
Defined.

(** One quality result among three: it comes first and alone has the star;
    the result without a link counts as not of a quality domain. *)
Example ranking_evaluated :
  CourseFinderTool.ranked
    [Scenarios.plain_result; Scenarios.linkless_result; Scenarios.sample_result]
  = [Scenarios.sample_result; Scenarios.plain_result; Scenarios.linkless_result].
Proof. vm_compute. reflexivity. Qed.

(** ** The summarizer, further *)

Section SummarizerFacts.

Import SummarizationTool.

Variable settings : Config.Settings.
Variable requests_get : string -> Z -> Outcome Response.
Variable pdf_reader_pages : string -> Outcome (list Page).
Variable chat_invoke : ChatConfig -> string -> Outcome string.


(** X17.  Pages after the tenth play no part: a document of at least ten
    pages and the same document with more pages after them give the same
    extraction, a fault included. *)
Theorem pages_beyond_tenth_ignored (pages more : list Page) :
  (10 <= length pages)%nat ->
  extract_pages (pages ++ more) = extract_pages pages.
Proof.
  intros Hten. rewrite !extract_pages_first_ten.
  by rewrite take_app_le by lia.
Qed.

(** X18.  A response with a 4xx or 5xx status is answered with the
    download error text; the PDF reader and the model play no part. *)
Theorem http_error_status_reported
    (pdf_url focus_area : string) (response : Response) :
  requests_get pdf_url 30 = Return response ->
  400 <= status_code response < 600 ->
  exists detail,
    summarize_paper settings requests_get pdf_reader_pages chat_invoke
      pdf_url focus_area
    = Return ("❌ Error downloading PDF: " +:+ detail
               +:+ ". Please check if the URL is accessible.").
Proof.
  intros Hget Hstatus.
  unfold summarize_paper, summarization_prompt, paper_text.
  rewrite Hget. simpl. unfold raise_for_status.
  replace (400 <=? status_code response) with true
    by (symmetry; apply Z.leb_le; lia).
  replace (status_code response <? 600) with true
    by (symmetry; apply Z.ltb_lt; lia).
  simpl. by eexists.
Qed.

(** X19.  The error text is chosen by the class of the exception alone,
    not by the step that failed: whether the fault comes from building the
    prompt or from the model call, a [RequestException] gives the download
    text, a [PdfReadError] the reading text and any other class the
    summarizing text. *)
Theorem error_text_by_exception_class (pdf_url focus_area : string) (e : Exn) :
  summarization_prompt requests_get pdf_reader_pages pdf_url focus_area
    = Raise e
  \/ (exists prompt,
        summarization_prompt requests_get pdf_reader_pages pdf_url focus_area
          = Return prompt
        /\ chat_invoke (llm_config settings) prompt = Raise e) ->
  summarize_paper settings requests_get pdf_reader_pages chat_invoke
    pdf_url focus_area
  = Return
      match exn_class e with
      | RequestException =>
          "❌ Error downloading PDF: " +:+ exn_str e
            +:+ ". Please check if the URL is accessible."
      | PdfReadError =>
          "❌ Error reading PDF: " +:+ exn_str e
            +:+ ". The PDF may be corrupted or password-protected."
      | _ => "❌ Error summarizing paper: " +:+ exn_str e
      end.
Proof.
  intros Hfault. unfold summarize_paper.
  assert (Hbody : forall body : Outcome string, body = Raise e ->
            try_except body on_error
            = Return
                match exn_class e with
                | RequestException =>
                    "❌ Error downloading PDF: " +:+ exn_str e
                      +:+ ". Please check if the URL is accessible."
                | PdfReadError =>
                    "❌ Error reading PDF: " +:+ exn_str e
                      +:+ ". The PDF may be corrupted or password-protected."
                | _ => "❌ Error summarizing paper: " +:+ exn_str e
                end).
  { intros body ->. simpl. unfold is_class.
    by destruct (exn_class e). }
  apply Hbody.
  destruct Hfault as [-> | (prompt & -> & Hchat)]; simpl; [done |].
  by rewrite Hchat.
Qed.

(** X20.  The focus area is matched without regard to letter case: an
    argument whose lower-case form is a key of [focus_prompts] selects the
    instruction of that key. *)
Theorem focus_matched_in_any_case (focus_area key instruction : string) :
  focus_prompts !! key = Some instruction ->
  lower focus_area = key ->
  focus_instruction focus_area = Return instruction.
Proof.
  intros Hkey Hlower. unfold focus_instruction, getitem.
  assert (Hmain : is_Some (focus_prompts !! "main findings"))
    by (unfold focus_prompts; rewrite lookup_insert_eq; by eexists).
  destruct Hmain as [fallback ->]. simpl.
  unfold dict_get. by rewrite Hlower, Hkey.
Qed.

End SummarizerFacts.

Lemma pages_beyond_tenth_ignored_witness :
  SummarizationTool.extract_pages
    (replicate 10 Scenarios.short_page
       ++ [Scenarios.broken_page; Scenarios.short_page])
  = SummarizationTool.extract_pages (replicate 10 Scenarios.short_page).
Proof.
  apply (pages_beyond_tenth_ignored (replicate 10 Scenarios.short_page)
           [Scenarios.broken_page; Scenarios.short_page]).
  simpl. lia.
Defined.

Lemma http_error_status_reported_witness :
  exists detail,
    SummarizationTool.summarize_paper Scenarios.settings10
      Scenarios.http_not_found Scenarios.reader_twelve Scenarios.chat_echo
      "https://arxiv.org/pdf/0000.00000" "results"
    = Return ("❌ Error downloading PDF: " +:+ detail
               +:+ ". Please check if the URL is accessible.").
Proof.
  apply (http_error_status_reported Scenarios.settings10
           Scenarios.http_not_found Scenarios.reader_twelve Scenarios.chat_echo
           "https://arxiv.org/pdf/0000.00000" "results"
           {| SummarizationTool.status_code := 404;
              SummarizationTool.content := EmptyString |}).
  - reflexivity.
  - simpl. lia.
Defined.

Lemma error_text_by_exception_class_witness :
  SummarizationTool.summarize_paper Scenarios.settings10 Scenarios.http_ok
    Scenarios.reader_short Scenarios.chat_offline
    "https://arxiv.org/pdf/2103.00020.pdf" "results"
  = Return "❌ Error downloading PDF: connection refused. Please check if the URL is accessible.".
Proof.
  apply (error_text_by_exception_class Scenarios.settings10 Scenarios.http_ok
           Scenarios.reader_short Scenarios.chat_offline
           "https://arxiv.org/pdf/2103.00020.pdf" "results"
           (mkExn RequestException "connection refused")).
  right. eexists. split; reflexivity.
Defined.

Lemma focus_matched_in_any_case_witness :
  SummarizationTool.focus_instruction "FULL Summary"
  = Return "Provide a comprehensive summary covering all aspects.".
Proof.
  apply (focus_matched_in_any_case "FULL Summary" "full summary").
  - vm_compute. reflexivity.
  - vm_compute. reflexivity.
Defined.

(** A page among the first ten that cannot be read gives the reading
    error text. *)
Example broken_page_reported :
  SummarizationTool.summarize_paper Scenarios.settings10 Scenarios.http_ok
    (fun _ => Return [Scenarios.short_page; Scenarios.broken_page])
    Scenarios.chat_echo "https://arxiv.org/pdf/2103.00020.pdf" "results"
  = Return "❌ Error reading PDF: cannot decode page. The PDF may be corrupted or password-protected.".
Proof. vm_compute. reflexivity. Qed.
